(** * Units of measure in Pyomo expressions: [pyomo/core/base/units.py]

    A shallow embedding of the unit-extraction visitor
    ([_UnitExtractionVisitor]), of the entry points [get_units] and
    [check_units_consistency], and of the attribute protocol of
    [PyomoUnitsContainer], followed by the properties of the natural-language
    specification that concern them.

    Layout of the development:
    - the [PintLibrary] interface: what [units.py] uses of the [pint] package;
    - expression trees, Python values, exceptions and the [result] monad;
    - the [ExpressionSystem] interface: what [units.py] uses of the rest of
      Pyomo (operator overloading, [value], [is_fixed], ...);
    - the visitor methods, the two dispatch tables, [exitNode] and the
      post-order walk;
    - the units container (module [Container]);
    - a concrete [pint] registry and expression system to evaluate on;
    - the theorems. *)

From Stdlib Require Import QArith Qabs Qround.
From stdpp Require Import base option list strings gmap.

Set Warnings "-register-all".
Local Open Scope string_scope.

(** ** The part of [pint] that [units.py] relies on

    [pint] is an external package.  The visitor only ever builds unit objects
    from other unit objects, compares them with [==], compares their
    dimensionality and looks at the magnitude of a difference of two
    quantities.  These operations are the fields of the class; Python floats
    are read as rationals. *)
Class PintLibrary : Type := {
  pint_unit : Type;
  (** [ureg.dimensionless] and [ureg.radians] *)
  pint_dimensionless : pint_unit;
  pint_radians : pint_unit;
  (** [lhs == rhs] *)
  pint_eqb : pint_unit -> pint_unit -> bool;
  (** [(1.0*lhs).dimensionality == (1.0*rhs).dimensionality] *)
  same_dimensionality : pint_unit -> pint_unit -> bool;
  (** [abs(1.0*lhs - 1.0*rhs).magnitude] *)
  abs_difference_magnitude : pint_unit -> pint_unit -> Q;
  (** [a * b], [1.0 / a], [a ** x] *)
  pint_mul : pint_unit -> pint_unit -> pint_unit;
  pint_rdiv : pint_unit -> pint_unit;
  pint_pow : pint_unit -> Q -> pint_unit
}.

(** Strict comparison of two floats, [x < y]. *)
Definition Qltb (x y : Q) : bool := negb (Qle_bool y x).

(** ** Expression trees *)

(** The classes of expression nodes.  The first twenty-four are the keys of
    [node_type_method_map]; [OtherExpression] stands for every other class
    whose [is_expression_type()] is true (named expressions, for one). *)
Inductive node_type : Type :=
  | EqualityExpression | InequalityExpression | RangedExpression
  | SumExpression | NPV_SumExpression
  | ProductExpression | MonomialTermExpression | NPV_ProductExpression
  | ReciprocalExpression | NPV_ReciprocalExpression
  | PowExpression | NPV_PowExpression
  | NegationExpression | NPV_NegationExpression
  | AbsExpression | NPV_AbsExpression
  | UnaryFunctionExpression | NPV_UnaryFunctionExpression
  | Expr_ifExpression
  | IndexTemplate
  | GetItemExpression
  | ExternalFunctionExpression | NPV_ExternalFunctionExpression
  | LinearExpression
  | OtherExpression (cls : string).

Section WithPint.
Context {pint : PintLibrary}.

(** An expression as the visitor sees it.
    - [Native x]: an object whose type is in [nonpyomo_leaf_types];
    - [PyomoUnit u]: an instance of [_PyomoUnit] wrapping the pint unit [u];
    - [Leaf name]: any other Pyomo object that is not of expression type
      (a variable, a parameter);
    - [Node t name args]: an expression node of class [t], with [getname()]
      equal to [name] and [args] its children;
    - [Linear constant linear_coefs linear_vars]: a [LinearExpression], whose
      [args] the walker sees as empty. *)
Inductive expr : Type :=
  | Native (x : Q)
  | PyomoUnit (u : pint_unit)
  | Leaf (name : string)
  | Node (t : node_type) (name : string) (args : list expr)
  | Linear (constant : expr) (linear_coefs linear_vars : list expr).

(** What can sit in the second slot of a units tuple: a pint unit, or, since
    Python tuples are untyped, a Pyomo unit expression. *)
Inductive pyval : Type :=
  | Pint (u : pint_unit)
  | Pyomo (e : expr).

(** A [( PyomoUnit, pint unit )] pair. *)
Definition unit_tuple : Type := expr * pyval.

(** Error messages are kept as the pieces handed to [str.format]. *)
Inductive piece : Type :=
  | Text (s : string)
  | Str_expr (e : expr)
  | Str_unit (v : pyval)
  | Str_type (t : node_type).

Definition message : Type := list piece.

(** ** Exceptions

    [InconsistentUnitsError] is a subclass of [UnitsError]; the other
    constructors are the builtin exceptions the module can raise, pint's
    [UndefinedUnitError], and [OtherError] for whatever else the host may
    raise. *)
Inductive exn : Type :=
  | UnitsError (msg : message)
  | InconsistentUnitsError (exp1 exp2 : pyval) (msg : message)
  | TypeError (msg : message)
  | AssertionError
  | IndexError
  | UnboundLocalError (variable : string)
  | AttributeError (msg : message)
  | UndefinedUnitError (name : string)
  | OtherError (cls : string).

(** [isinstance(e, UnitsError)] *)
Definition is_UnitsError (e : exn) : bool :=
  match e with
  | UnitsError _ | InconsistentUnitsError _ _ _ => true
  | _ => false
  end.

(** The error kinds the specification lists for the engine. *)
Definition units_error_taxonomy (e : exn) : bool :=
  match e with
  | UnitsError _ | InconsistentUnitsError _ _ _ | TypeError _
  | UndefinedUnitError _ => true
  | _ => false
  end.

(** A computation either returns or raises. *)
Inductive result (A : Type) : Type :=
  | Ok (a : A)
  | Raise (e : exn).
Arguments Ok {A} a.
Arguments Raise {A} e.

Definition bind {A B : Type} (m : result A) (k : A -> result B) : result B :=
  match m with
  | Ok a => k a
  | Raise e => Raise e
  end.

Definition returns {A : Type} (m : result A) : bool :=
  match m with Ok _ => true | Raise _ => false end.

(** ** The part of Pyomo that [units.py] relies on

    Operator overloading on [NumericValue] builds new expressions;
    [is_fixed], [is_constant], [value] and truth testing are methods of the
    host objects.  The [foreign_] fields say what Python does when an
    operation meant for two pint units is handed something else. *)
Class ExpressionSystem : Type := {
  pyomo_mul : expr -> expr -> expr;
  pyomo_rdiv : expr -> expr;
  pyomo_pow : expr -> Q -> expr;
  host_is_fixed : expr -> bool;
  host_is_constant : expr -> bool;
  host_value : expr -> result Q;
  host_bool : expr -> bool;
  foreign_equivalent : pyval -> pyval -> result bool;
  foreign_mul : pyval -> pyval -> result pyval;
  foreign_rdiv : pyval -> result pyval;
  foreign_pow : pyval -> Q -> result pyval
}.

End WithPint.

Arguments Ok {pint A} a.
Arguments Raise {pint A} e.

Declare Scope result_scope.
Delimit Scope result_scope with result.
Notation "'let!' x ':=' m 'in' k" := (bind m (fun x => k))
  (at level 10, x pattern, m at level 100, k at level 200,
   format "'[v' 'let!'  x  ':='  m  'in' '/' k ']'") : result_scope.
Local Open Scope result_scope.

(** ** The visitor *)

Section Visitor.
Context {pint : PintLibrary} {pyomo : ExpressionSystem}.

(** [self._units_equivalence_tolerance] *)
Variable units_equivalence_tolerance : Q.

(** [pyomo_units_container.dimensionless] and [.radians]: the container wraps
    the registry's unit of that name in a [_PyomoUnit]. *)
Definition container_dimensionless : expr := PyomoUnit pint_dimensionless.
Definition container_radians : expr := PyomoUnit pint_radians.

(** The operations the visitor applies to the second slot of a tuple. *)
Definition slot_mul (a b : pyval) : result pyval :=
  match a, b with
  | Pint x, Pint y => Ok (Pint (pint_mul x y))
  | _, _ => foreign_mul a b
  end.

Definition slot_rdiv (a : pyval) : result pyval :=
  match a with
  | Pint x => Ok (Pint (pint_rdiv x))
  | _ => foreign_rdiv a
  end.

Definition slot_pow (a : pyval) (x : Q) : result pyval :=
  match a with
  | Pint u => Ok (Pint (pint_pow u x))
  | _ => foreign_pow a x
  end.

(** [type(expr) in nonpyomo_leaf_types] *)
Definition is_nonpyomo_leaf (e : expr) : bool :=
  match e with Native _ => true | _ => false end.

(** [expr.is_expression_type()]; [_PyomoUnit] answers [False]. *)
Definition is_expression_type (e : expr) : bool :=
  match e with
  | Node _ _ _ | Linear _ _ _ => true
  | _ => false
  end.

Definition is_leaf (e : expr) : bool :=
  if is_nonpyomo_leaf e || negb (is_expression_type e) then true else false.

(** [_PyomoUnit.is_fixed] is always [True], [_PyomoUnit.is_constant] always
    [False], and calling a unit gives [1.0]; other objects answer for
    themselves. *)
Definition is_fixed (e : expr) : bool :=
  match e with PyomoUnit _ => true | _ => host_is_fixed e end.

Definition is_constant (e : expr) : bool :=
  match e with PyomoUnit _ => false | _ => host_is_constant e end.

Definition value (e : expr) : result Q :=
  match e with
  | Native x => Ok x
  | PyomoUnit _ => Ok 1%Q
  | _ => host_value e
  end.

(** Truth value of an object in an [if]: a number is true when it is not
    zero, a unit always ([_PyomoUnit.__bool__]). *)
Definition truth (e : expr) : bool :=
  match e with
  | Native x => negb (Qeq_bool x 0)
  | PyomoUnit _ => true
  | _ => host_bool e
  end.

Definition node_args (e : expr) : list expr :=
  match e with Node _ _ args => args | _ => [] end.

Definition getname (e : expr) : string :=
  match e with
  | Node _ name _ => name
  | Leaf name => name
  | _ => EmptyString
  end.

Definition type_of (e : expr) : option node_type :=
  match e with
  | Node t _ _ => Some t
  | Linear _ _ _ => Some LinearExpression
  | _ => None
  end.

Definition _pint_units_equivalent (lhs rhs : pyval) : result bool :=
  match lhs, rhs with
  | Pint l, Pint r =>
      if pint_eqb l r then Ok true
      else if same_dimensionality l r
              && Qltb (abs_difference_magnitude l r) units_equivalence_tolerance
      then Ok true
      else Ok false
  | _, _ => foreign_equivalent lhs rhs
  end.

(** The loop [for i in range(1, len(list_of_unit_tuples))] shared by
    [_get_unit_for_equivalent_children] and
    [_get_unit_for_linear_expression]. *)
Fixpoint check_equivalent_to (node : expr) (pint_unit_0 : pyval)
    (rest : list unit_tuple) : result unit :=
  match rest with
  | [] => Ok tt
  | (_, pint_unit_i) :: rest' =>
      let! b := _pint_units_equivalent pint_unit_0 pint_unit_i in
      if negb b then
        Raise (InconsistentUnitsError pint_unit_0 pint_unit_i
                 [Text "Error in units found in expression: "; Str_expr node])
      else check_equivalent_to node pint_unit_0 rest'
  end.

Definition _get_unit_for_equivalent_children (node : expr)
    (list_of_unit_tuples : list unit_tuple) : result unit_tuple :=
  match list_of_unit_tuples with
  | [] => Raise AssertionError
  | (pyomo_unit_0, pint_unit_0) :: rest =>
      let! _ := check_equivalent_to node pint_unit_0 rest in
      Ok (pyomo_unit_0, pint_unit_0)
  end.

(** [_get_unit_for_linear_expression] recurses into the coefficients and
    variables itself, through [_get_units_tuple]; the recursive entry point is
    a parameter here and is tied to the walk below. *)
Section LinearExpression.
Variable _get_units_tuple : expr -> result unit_tuple.

(** The body of [for k,v in enumerate(node.linear_vars)]: the units of the
    variable are computed first, then those of [node.linear_coefs[k]].
    [c_units_of] holds the pending computations for the coefficients. *)
Fixpoint linear_term_units (linear_vars : list expr)
    (c_units_of : list (result unit_tuple)) : result (list unit_tuple) :=
  match linear_vars, c_units_of with
  | [], _ => Ok []
  | v :: linear_vars', get_c :: c_units_of' =>
      let! v_units := _get_units_tuple v in
      let! c_units := get_c in
      let! c_dimensionless :=
        _pint_units_equivalent (snd c_units) (Pint pint_dimensionless) in
      let! term :=
        if c_dimensionless then Ok (fst v_units, snd v_units)
        else
          let! v_dimensionless :=
            _pint_units_equivalent (snd v_units) (Pint pint_dimensionless) in
          if v_dimensionless then Ok (fst c_units, snd c_units)
          else
            let! p := slot_mul (snd c_units) (snd v_units) in
            Ok (pyomo_mul (fst c_units) (fst v_units), p) in
      let! terms := linear_term_units linear_vars' c_units_of' in
      Ok (term :: terms)
  | _ :: _, [] => Raise IndexError
  end.

Definition _get_unit_for_linear_expression (node : expr)
    (list_of_unit_tuples : list unit_tuple) : result unit_tuple :=
  if negb (length list_of_unit_tuples =? 0)%nat then Raise AssertionError
  else
    match node with
    | Linear constant linear_coefs linear_vars =>
        let! const_units :=
          if truth constant then
            let! const_units := _get_units_tuple constant in Ok [const_units]
          else Ok [] in
        if negb (length linear_coefs =? length linear_vars)%nat
        then Raise AssertionError
        else
          let! terms :=
            linear_term_units linear_vars (map _get_units_tuple linear_coefs) in
          match (const_units ++ terms)%list with
          | [] => Raise IndexError
          | (pyomo_unit_0, pint_unit_0) :: rest =>
              let! _ := check_equivalent_to node pint_unit_0 rest in
              Ok (pyomo_unit_0, pint_unit_0)
          end
    | _ => Raise (AttributeError [Text "constant"])
    end.

End LinearExpression.

(** The loop of [_get_unit_for_product]; [acc] is the pair of the locals
    [pyomo_unit] and [pint_unit], [None] until the first child with units. *)
Fixpoint product_loop (acc : option unit_tuple)
    (list_of_unit_tuples : list unit_tuple) : result (option unit_tuple) :=
  match list_of_unit_tuples with
  | [] => Ok acc
  | (pyomo_unit_i, pint_unit_i) :: rest =>
      let! dimensionless :=
        _pint_units_equivalent pint_unit_i (Pint pint_dimensionless) in
      if dimensionless then product_loop acc rest
      else
        match acc with
        | None => product_loop (Some (pyomo_unit_i, pint_unit_i)) rest
        | Some (pyomo_unit, pint_unit) =>
            let! pint_unit' := slot_mul pint_unit pint_unit_i in
            product_loop
              (Some (pyomo_mul pyomo_unit pyomo_unit_i, pint_unit')) rest
        end
  end.

Definition _get_unit_for_product (node : expr)
    (list_of_unit_tuples : list unit_tuple) : result unit_tuple :=
  if negb (1 <? length list_of_unit_tuples)%nat then Raise AssertionError
  else
    let! acc := product_loop None list_of_unit_tuples in
    match acc with
    | None => Ok (container_dimensionless, Pint pint_dimensionless)
    | Some (pyomo_unit, pint_unit) => Ok (pyomo_unit, pint_unit)
    end.

Definition _get_unit_for_reciprocal (node : expr)
    (list_of_unit_tuples : list unit_tuple) : result unit_tuple :=
  match list_of_unit_tuples with
  | [(pyomo_unit, pint_unit)] =>
      let! dimensionless :=
        _pint_units_equivalent pint_unit (Pint pint_dimensionless) in
      if dimensionless then Ok (pyomo_unit, pint_unit)
      else
        let! pint_unit' := slot_rdiv pint_unit in
        Ok (pyomo_rdiv pyomo_unit, pint_unit')
  | _ => Raise AssertionError
  end.

Definition _get_unit_for_pow (node : expr)
    (list_of_unit_tuples : list unit_tuple) : result unit_tuple :=
  match list_of_unit_tuples with
  | [(pyomo_unit_base, pint_unit_base);
     (pyomo_unit_exponent, pint_unit_exponent)] =>
      let! exponent_dimensionless :=
        _pint_units_equivalent pint_unit_exponent (Pint pint_dimensionless) in
      if negb exponent_dimensionless then
        Raise (UnitsError
                 [Text "Error in sub-expression: "; Str_expr node;
                  Text ". Exponents in a pow expression must be dimensionless."])
      else
        let! base_dimensionless :=
          _pint_units_equivalent pint_unit_base (Pint pint_dimensionless) in
        if base_dimensionless then
          Ok (pyomo_unit_base, Pyomo pyomo_unit_exponent)
        else
          match node_args node !! 1%nat with
          | None => Raise IndexError
          | Some exponent =>
              if negb (is_nonpyomo_leaf exponent)
                 && negb (is_fixed exponent || is_constant exponent)
              then
                Raise (UnitsError
                         [Text "The base of an exponent has units ";
                          Str_expr pyomo_unit_base;
                          Text ", but the exponent is not a fixed numerical value."])
              else
                let! exponent_value := value exponent in
                let pyomo_unit := pyomo_pow pyomo_unit_base exponent_value in
                let! pint_unit := slot_pow pint_unit_base exponent_value in
                Ok (pyomo_unit, pint_unit)
          end
  | _ => Raise AssertionError
  end.

Definition _get_unit_for_single_child (node : expr)
    (list_of_unit_tuples : list unit_tuple) : result unit_tuple :=
  match list_of_unit_tuples with
  | [(pyomo_unit, pint_unit)] => Ok (pyomo_unit, pint_unit)
  | _ => Raise AssertionError
  end.

(** The loop of [_get_dimensionless_with_dimensionless_children]; [bound] is
    the pair of loop variables [pyomo_unit], [pint_unit], unbound ([None])
    until the first iteration. *)
Fixpoint dimensionless_children_loop (node : expr) (bound : option unit_tuple)
    (list_of_unit_tuples : list unit_tuple) : result (option unit_tuple) :=
  match list_of_unit_tuples with
  | [] => Ok bound
  | (pyomo_unit, pint_unit) :: rest =>
      let! dimensionless :=
        _pint_units_equivalent pint_unit (Pint pint_dimensionless) in
      if negb dimensionless then
        Raise (UnitsError
                 [Text "Expected dimensionless units in "; Str_expr node;
                  Text ", but found "; Str_expr pyomo_unit; Text "."])
      else dimensionless_children_loop node (Some (pyomo_unit, pint_unit)) rest
  end.

Definition _get_dimensionless_with_dimensionless_children (node : expr)
    (list_of_unit_tuples : list unit_tuple) : result unit_tuple :=
  let! bound := dimensionless_children_loop node None list_of_unit_tuples in
  match bound with
  | None => Raise (UnboundLocalError "pyomo_unit")
  | Some (pyomo_unit, pint_unit) => Ok (pyomo_unit, pint_unit)
  end.

Definition _get_dimensionless_no_children (node : expr)
    (list_of_unit_tuples : list unit_tuple) : result unit_tuple :=
  if negb (length list_of_unit_tuples =? 0)%nat then Raise AssertionError
  else if negb (is_leaf node) then Raise AssertionError
  else Ok (container_dimensionless, Pint pint_dimensionless).

Definition _get_unit_for_expr_if (node : expr)
    (list_of_unit_tuples : list unit_tuple) : result unit_tuple :=
  match list_of_unit_tuples with
  | [_; (then_pyomo_unit, then_pint_unit); (else_pyomo_unit, else_pint_unit)] =>
      let! same := _pint_units_equivalent then_pint_unit else_pint_unit in
      if negb same then
        Raise (InconsistentUnitsError (Pyomo then_pyomo_unit)
                 (Pyomo else_pyomo_unit)
                 [Text "Error in units found in expression: "; Str_expr node])
      else Ok (then_pyomo_unit, then_pint_unit)
  | _ => Raise AssertionError
  end.

Definition _get_dimensionless_with_radians_child (node : expr)
    (list_of_unit_tuples : list unit_tuple) : result unit_tuple :=
  match list_of_unit_tuples with
  | [(pyomo_unit, pint_unit)] =>
      let! radians := _pint_units_equivalent pint_unit (Pint pint_radians) in
      if negb radians then
        Raise (UnitsError
                 [Text "Expected radians in argument to function in expression ";
                  Str_expr node; Text ", but found "; Str_expr pyomo_unit])
      else Ok (container_dimensionless, Pint pint_dimensionless)
  | _ => Raise AssertionError
  end.

Definition _get_radians_with_dimensionless_child (node : expr)
    (list_of_unit_tuples : list unit_tuple) : result unit_tuple :=
  match list_of_unit_tuples with
  | [(pyomo_unit, pint_unit)] =>
      let! dimensionless :=
        _pint_units_equivalent pint_unit (Pint pint_dimensionless) in
      if negb dimensionless then
        Raise (UnitsError
                 [Text "Expected dimensionless argument to function in expression ";
                  Str_expr node; Text ", but found "; Str_expr pyomo_unit])
      else Ok (container_radians, Pint pint_radians)
  | _ => Raise AssertionError
  end.

Definition _get_unit_sqrt (node : expr)
    (list_of_unit_tuples : list unit_tuple) : result unit_tuple :=
  match list_of_unit_tuples with
  | [(pyomo_unit, pint_unit)] =>
      let! dimensionless :=
        _pint_units_equivalent pint_unit (Pint pint_dimensionless) in
      if dimensionless then Ok (container_dimensionless, Pint pint_dimensionless)
      else
        let! pint_unit' := slot_pow pint_unit (1 # 2) in
        Ok (pyomo_pow pyomo_unit (1 # 2), pint_unit')
  | _ => Raise AssertionError
  end.

(** A visitor method, as stored in the two dispatch tables. *)
Definition method : Type := expr -> list unit_tuple -> result unit_tuple.

(** [unary_function_method_map]: the dict literal, in source order. *)
Definition unary_function_method_map : list (string * method) :=
  [ ("log", _get_dimensionless_with_dimensionless_children);
    ("log10", _get_dimensionless_with_dimensionless_children);
    ("sin", _get_dimensionless_with_radians_child);
    ("cos", _get_dimensionless_with_radians_child);
    ("tan", _get_dimensionless_with_radians_child);
    ("sinh", _get_dimensionless_with_radians_child);
    ("cosh", _get_dimensionless_with_radians_child);
    ("tanh", _get_dimensionless_with_radians_child);
    ("asin", _get_radians_with_dimensionless_child);
    ("acos", _get_radians_with_dimensionless_child);
    ("atan", _get_radians_with_dimensionless_child);
    ("exp", _get_dimensionless_with_dimensionless_children);
    ("sqrt", _get_unit_sqrt);
    ("asinh", _get_radians_with_dimensionless_child);
    ("acosh", _get_radians_with_dimensionless_child);
    ("atanh", _get_radians_with_dimensionless_child);
    ("ceil", _get_unit_for_single_child);
    ("floor", _get_unit_for_single_child) ].

(** [d[key]] guarded by [key in d], for a dict with string keys. *)
Fixpoint dict_get {V : Type} (d : list (string * V)) (key : string) : option V :=
  match d with
  | [] => None
  | (k, v) :: d' => if String.eqb k key then Some v else dict_get d' key
  end.

(** No entry of either table is [None], so the test [node_func is not None]
    always passes and is not represented. *)
Definition _get_unit_for_unary_function (node : expr)
    (list_of_unit_tuples : list unit_tuple) : result unit_tuple :=
  if negb (length list_of_unit_tuples =? 1)%nat then Raise AssertionError
  else
    let func_name := getname node in
    match dict_get unary_function_method_map func_name with
    | Some node_func => node_func node list_of_unit_tuples
    | None =>
        Raise (TypeError
                 [Text "An unhandled unary function: "; Text func_name;
                  Text " was encountered while retrieving the units of expression ";
                  Str_expr node])
    end.

Section Dispatch.
Variable _get_units_tuple : expr -> result unit_tuple.

(** [node_type_method_map]: one branch per entry of the dict literal. *)
Definition node_type_method_map (t : node_type) : option method :=
  match t with
  | EqualityExpression => Some _get_unit_for_equivalent_children
  | InequalityExpression => Some _get_unit_for_equivalent_children
  | RangedExpression => Some _get_unit_for_equivalent_children
  | SumExpression => Some _get_unit_for_equivalent_children
  | NPV_SumExpression => Some _get_unit_for_equivalent_children
  | ProductExpression => Some _get_unit_for_product
  | MonomialTermExpression => Some _get_unit_for_product
  | NPV_ProductExpression => Some _get_unit_for_product
  | ReciprocalExpression => Some _get_unit_for_reciprocal
  | NPV_ReciprocalExpression => Some _get_unit_for_reciprocal
  | PowExpression => Some _get_unit_for_pow
  | NPV_PowExpression => Some _get_unit_for_pow
  | NegationExpression => Some _get_unit_for_single_child
  | NPV_NegationExpression => Some _get_unit_for_single_child
  | AbsExpression => Some _get_unit_for_single_child
  | NPV_AbsExpression => Some _get_unit_for_single_child
  | UnaryFunctionExpression => Some _get_unit_for_unary_function
  | NPV_UnaryFunctionExpression => Some _get_unit_for_unary_function
  | Expr_ifExpression => Some _get_unit_for_expr_if
  | IndexTemplate => Some _get_dimensionless_no_children
  | GetItemExpression => Some _get_dimensionless_with_dimensionless_children
  | ExternalFunctionExpression =>
      Some _get_dimensionless_with_dimensionless_children
  | NPV_ExternalFunctionExpression =>
      Some _get_dimensionless_with_dimensionless_children
  | LinearExpression =>
      Some (_get_unit_for_linear_expression _get_units_tuple)
  | OtherExpression _ => None
  end.

(** [type(node)] of a node that is not a leaf. *)
Definition node_class (node : expr) : node_type :=
  match node with
  | Node t _ _ => t
  | Linear _ _ _ => LinearExpression
  | Native _ => OtherExpression "float"
  | PyomoUnit _ => OtherExpression "_PyomoUnit"
  | Leaf _ => OtherExpression "NumericValue"
  end.

Definition exitNode (node : expr) (data : list unit_tuple) : result unit_tuple :=
  if is_leaf node then
    match node with
    | PyomoUnit u => Ok (node, Pint u)
    | _ => Ok (container_dimensionless, Pint pint_dimensionless)
    end
  else
    let node_type := node_class node in
    match node_type_method_map node_type with
    | Some node_func =>
        let! (pyomo_unit, pint_unit) := node_func node data in
        Ok (pyomo_unit, pint_unit)
    | None =>
        Raise (TypeError
                 [Text "An unhandled expression node type: "; Str_type node_type;
                  Text " was encountered while retrieving the units of expression"])
    end.

End Dispatch.

(** The children of a node are walked from left to right and the first
    exception ends the walk. *)
Section WalkChildren.
Variable walk : expr -> result unit_tuple.

Fixpoint walk_children (args : list expr) : result (list unit_tuple) :=
  match args with
  | [] => Ok []
  | child :: args' =>
      let! r := walk child in
      let! data := walk_children args' in
      Ok (r :: data)
  end.

End WalkChildren.

End Visitor.

(** ** The entry points *)

Section EntryPoints.
Context {pint : PintLibrary} {pyomo : ExpressionSystem}.

(** The default of [units_equivalence_tolerance], [1e-12]. *)
Definition default_tolerance : Q := 1 # 1000000000000.

(** [StreamBasedExpressionVisitor.walk_expression] with only [exitNode]
    overridden: a post-order walk which hands [exitNode] the results of the
    children of the node, in order.  A leaf and a [LinearExpression] have no
    children for the walker.

    [exitNode] reaches the recursive entry point [_get_units_tuple], which
    walks with a fresh visitor and so with the default tolerance, only
    through [_get_unit_for_linear_expression] on a [LinearExpression].  The
    definition has to be structural: it names that case and gives [exitNode]
    an entry point that fails elsewhere.  [walk_expression_eq] below shows
    that the walk is the recursion the source writes, with [exitNode]
    calling the walk itself. *)
Definition no_recursion (e : expr) : result unit_tuple := Raise AssertionError.

Fixpoint walk_expression (units_equivalence_tolerance : Q) (e : expr)
    {struct e} : result unit_tuple :=
  match e with
  | Node _ _ args =>
      let! data :=
        walk_children (walk_expression units_equivalence_tolerance) args in
      exitNode units_equivalence_tolerance no_recursion e data
  | Linear constant linear_coefs linear_vars =>
      let! (pyomo_unit, pint_unit) :=
        _get_unit_for_linear_expression units_equivalence_tolerance
          (walk_expression default_tolerance)
          (Linear constant linear_coefs linear_vars) [] in
      Ok (pyomo_unit, pint_unit)
  | _ => exitNode units_equivalence_tolerance no_recursion e []
  end.

(** [_UnitExtractionVisitor(pyomo_units_container).walk_expression(expr)]:
    a fresh visitor, with the default tolerance. *)
Definition _get_units_tuple (e : expr) : result unit_tuple :=
  let! (pyomo_unit, pint_unit) := walk_expression default_tolerance e in
  Ok (pyomo_unit, pint_unit).

Definition get_units (e : expr) : result expr :=
  let! (pyomo_unit, pint_unit) := _get_units_tuple e in
  Ok pyomo_unit.

(** The Python objects a caller may pass for [allow_exceptions]. *)
Inductive pyobject : Type :=
  | PyBool (b : bool)
  | PyInt (n : Z)
  | PyFloat (x : Q)
  | PyStr (s : string)
  | PyNone.

(** [x is True]: [True] is a singleton, so only [PyBool true] is it. *)
Definition is_True (x : pyobject) : bool :=
  match x with PyBool true => true | _ => false end.

(** The second call sits in [try: ... except: return False], a bare
    [except], which handles every exception. *)
Definition check_units_consistency (e : expr) (allow_exceptions : pyobject)
    : result bool :=
  if is_True allow_exceptions then
    let! (pyomo_unit, pint_unit) := _get_units_tuple e in
    Ok true
  else
    match _get_units_tuple e with
    | Raise _ => Ok false
    | Ok (pyomo_unit, pint_unit) => Ok true
    end.

End EntryPoints.

(** ** Vocabulary of the statements *)

Section Vocabulary.
Context {pint : PintLibrary} {pyomo : ExpressionSystem}.
Variable tolerance : Q.

(** The test of [_pint_units_equivalent] on two pint units. *)
Definition equivalent (lhs rhs : pint_unit) : bool :=
  pint_eqb lhs rhs
  || (same_dimensionality lhs rhs
      && Qltb (abs_difference_magnitude lhs rhs) tolerance).

(** Children whose second slot holds a pint unit, as [exitNode] hands them
    on. *)
Definition typed (c : expr * pint_unit) : unit_tuple := (fst c, Pint (snd c)).

Definition tuples (children : list (expr * pint_unit)) : list unit_tuple :=
  map typed children.

Definition pairwise_equivalent (units : list pint_unit) : bool :=
  forallb (fun a => forallb (fun b => equivalent a b) units) units.

(** The first child after the first whose unit is not equivalent to [u]. *)
Definition first_mismatch (u : pint_unit) (rest : list (expr * pint_unit))
    : option (expr * pint_unit) :=
  List.find (fun c => negb (equivalent u (snd c))) rest.

Definition has_units (c : expr * pint_unit) : bool :=
  negb (equivalent (snd c) pint_dimensionless).

Definition multiply (a b : expr * pint_unit) : expr * pint_unit :=
  (pyomo_mul (fst a) (fst b), pint_mul (snd a) (snd b)).

(** The product, from left to right, of the children that are not
    dimensionless; dimensionless when there is none. *)
Definition product_of_units (children : list (expr * pint_unit))
    : expr * pint_unit :=
  match List.filter has_units children with
  | [] => (container_dimensionless, pint_dimensionless)
  | c :: cs => fold_left multiply cs c
  end.

(** The locals [pyomo_unit] and [pint_unit] of the product loop once the
    children with units [cs] have gone by, having started from [acc]. *)
Definition accumulate (acc : option (expr * pint_unit))
    (cs : list (expr * pint_unit)) : option (expr * pint_unit) :=
  match acc, cs with
  | Some a, _ => Some (fold_left multiply cs a)
  | None, [] => None
  | None, c :: cs' => Some (fold_left multiply cs' c)
  end.

End Vocabulary.

Definition equivalent_children_types : list node_type :=
  [EqualityExpression; InequalityExpression; RangedExpression;
   SumExpression; NPV_SumExpression].
Definition product_types : list node_type :=
  [ProductExpression; MonomialTermExpression; NPV_ProductExpression].
Definition pow_types : list node_type := [PowExpression; NPV_PowExpression].
Definition unary_function_types : list node_type :=
  [UnaryFunctionExpression; NPV_UnaryFunctionExpression].
Definition opaque_types : list node_type :=
  [GetItemExpression; ExternalFunctionExpression;
   NPV_ExternalFunctionExpression].
Definition trig_functions : list string :=
  ["sin"; "cos"; "tan"; "sinh"; "cosh"; "tanh"].
Definition inverse_trig_functions : list string :=
  ["asin"; "acos"; "atan"; "asinh"; "acosh"; "atanh"].

(** ** The units container

    [PyomoUnitsContainer] creates its units on first access: Python looks an
    attribute up in the instance first and calls [__getattr__] only when that
    fails, and [__getattr__] stores what it builds with [setattr]. *)
Module Container.
Section Container.
Context {pint : PintLibrary}.

(** A [_PyomoUnit] object; [address] is its identity ([id(unit)]). *)
Record _PyomoUnit : Type := {
  address : nat;
  _pint_unit : pint_unit
}.

(** The container and the allocator.
    - [resolve]: what [getattr(self._pint_ureg, item)] finds; [None] when
      pint raises [UndefinedUnitError];
    - [attributes]: the unit attributes set on the instance so far;
    - [next_address]: the identity of the next object to be created. *)
Record PyomoUnitsContainer : Type := {
  resolve : string -> option pint_unit;
  attributes : gmap string _PyomoUnit;
  next_address : nat
}.

(** [getattr(self._pint_ureg, item)] *)
Definition ureg_getattr (self : PyomoUnitsContainer) (item : string)
    : result pint_unit :=
  match resolve self item with
  | Some u => Ok u
  | None => Raise (UndefinedUnitError item)
  end.

(** [unit = _PyomoUnit(pint_unit, self._pint_ureg); setattr(self, item, unit)] *)
Definition new_unit (self : PyomoUnitsContainer) (item : string)
    (pint_unit : pint_unit) : _PyomoUnit * PyomoUnitsContainer :=
  let unit := {| address := next_address self; _pint_unit := pint_unit |} in
  (unit,
   {| resolve := resolve self;
      attributes := <[item := unit]> (attributes self);
      next_address := S (next_address self) |}).

(** A unit object is never [None], so the test [pint_unit is not None]
    passes whenever the registry answers; [except UndefinedUnitError] leaves
    [pint_unit] at [None] and the method raises [AttributeError]. *)
Definition __getattr__ (self : PyomoUnitsContainer) (item : string)
    : result _PyomoUnit * PyomoUnitsContainer :=
  match ureg_getattr self item with
  | Ok pint_unit =>
      let (unit, self') := new_unit self item pint_unit in
      (Ok unit, self')
  | Raise (UndefinedUnitError _) =>
      (Raise (AttributeError
                [Text "Attribute "; Text item; Text " not found."]), self)
  | Raise e => (Raise e, self)
  end.

(** [self.item] *)
Definition getattr (self : PyomoUnitsContainer) (item : string)
    : result _PyomoUnit * PyomoUnitsContainer :=
  match attributes self !! item with
  | Some unit => (Ok unit, self)
  | None => __getattr__ self item
  end.

End Container.
End Container.

(** ** A registry and an expression system to evaluate on

    A small stand-in for pint's registry: a unit is, as in pint's
    [UnitsContainer], the exponents of the named units it is a product of.
    [meter], [kilogram] and [radian] have factor one; [meter_up] and
    [meter_down] are two lengths of [1 + 6e-13] and [1 - 6e-13] meter.
    [radian] has no dimension, as in pint. *)
Module Example.

Record unit_exponents : Type := {
  meter : Q;
  kilogram : Q;
  radian : Q;
  meter_up : Q;
  meter_down : Q
}.

Definition exponents (m kg rad up down : Q) : unit_exponents :=
  {| meter := m; kilogram := kg; radian := rad;
     meter_up := up; meter_down := down |}.

Definition u_dimensionless : unit_exponents := exponents 0 0 0 0 0.
Definition u_meter : unit_exponents := exponents 1 0 0 0 0.
Definition u_kilogram : unit_exponents := exponents 0 1 0 0 0.
Definition u_radian : unit_exponents := exponents 0 0 1 0 0.
Definition u_meter_up : unit_exponents := exponents 0 0 0 1 0.
Definition u_meter_down : unit_exponents := exponents 0 0 0 0 1.

Definition u_eqb (a b : unit_exponents) : bool :=
  Qeq_bool (meter a) (meter b) && Qeq_bool (kilogram a) (kilogram b)
  && Qeq_bool (radian a) (radian b) && Qeq_bool (meter_up a) (meter_up b)
  && Qeq_bool (meter_down a) (meter_down b).

(** Exponents of length and of mass. *)
Definition dimensionality (a : unit_exponents) : Q * Q :=
  ((meter a + meter_up a + meter_down a)%Q, kilogram a).

Definition u_same_dimensionality (a b : unit_exponents) : bool :=
  Qeq_bool (fst (dimensionality a)) (fst (dimensionality b))
  && Qeq_bool (snd (dimensionality a)) (snd (dimensionality b)).

Definition factor_up : Q := 1 + (6 # 10000000000000).
Definition factor_down : Q := 1 - (6 # 10000000000000).

(** The size of one [a] in units of meter, kilogram and radian.  The two
    scaled units only occur with integral exponents below; a fractional
    exponent of theirs is rounded down. *)
Definition factor (a : unit_exponents) : Q :=
  (Qpower factor_up (Qfloor (meter_up a))
   * Qpower factor_down (Qfloor (meter_down a)))%Q.

(** One [b] expressed in [a], taken from one [a]. *)
Definition u_abs_difference_magnitude (a b : unit_exponents) : Q :=
  Qabs (1 - factor b / factor a).

Definition u_mul (a b : unit_exponents) : unit_exponents :=
  exponents (meter a + meter b) (kilogram a + kilogram b)
    (radian a + radian b) (meter_up a + meter_up b)
    (meter_down a + meter_down b).

Definition u_pow (a : unit_exponents) (x : Q) : unit_exponents :=
  exponents (meter a * x) (kilogram a * x) (radian a * x)
    (meter_up a * x) (meter_down a * x).

Definition u_rdiv (a : unit_exponents) : unit_exponents := u_pow a (-1).

#[export] Instance registry : PintLibrary := {|
  pint_unit := unit_exponents;
  pint_dimensionless := u_dimensionless;
  pint_radians := u_radian;
  pint_eqb := u_eqb;
  same_dimensionality := u_same_dimensionality;
  abs_difference_magnitude := u_abs_difference_magnitude;
  pint_mul := u_mul;
  pint_rdiv := u_rdiv;
  pint_pow := u_pow
|}.

(** The expression system: operators build non-potentially-variable nodes;
    the leaf named [p] is a parameter fixed at [2], every other leaf is a
    variable without a value; an operation on something that is not a pint
    unit raises [TypeError]. *)
Definition is_parameter (e : expr) : bool :=
  match e with Leaf name => String.eqb name "p" | _ => false end.

#[export] Instance pyomo : ExpressionSystem := {|
  pyomo_mul a b := Node NPV_ProductExpression "prod" [a; b];
  pyomo_rdiv a := Node NPV_ReciprocalExpression "recip" [a];
  pyomo_pow a x := Node NPV_PowExpression "pow" [a; Native x];
  host_is_fixed := is_parameter;
  host_is_constant := fun _ => false;
  host_value e := if is_parameter e then Ok 2%Q
                  else Raise (OtherError "ValueError");
  host_bool := fun _ => true;
  foreign_equivalent := fun _ _ => Raise (TypeError [Text "unsupported operand"]);
  foreign_mul := fun _ _ => Raise (TypeError [Text "unsupported operand"]);
  foreign_rdiv := fun _ => Raise (TypeError [Text "unsupported operand"]);
  foreign_pow := fun _ _ => Raise (TypeError [Text "unsupported operand"])
|}.

(** A few expressions: variables [x] and [y], the units themselves. *)
Definition var_x : expr := Leaf "x".
Definition var_y : expr := Leaf "y".
Definition param_p : expr := Leaf "p".
Definition m : expr := PyomoUnit u_meter.
Definition kg : expr := PyomoUnit u_kilogram.
Definition rad : expr := PyomoUnit u_radian.
Definition m_up : expr := PyomoUnit u_meter_up.
Definition m_down : expr := PyomoUnit u_meter_down.
Definition dimensionless : expr := PyomoUnit u_dimensionless.

(** [x * m], [x * rad], [x ** 2], [(x * m) ** p], [(x * m) ** y],
    [(x * m) ** (x * m)], the sum of three lengths, [sin], [asin], an
    external function called on nothing, an empty linear expression and an
    expression of a class the visitor does not know. *)
Definition x_meters : expr := Node ProductExpression "prod" [var_x; m].
Definition x_radians : expr := Node ProductExpression "prod" [var_x; rad].
Definition x_squared : expr := Node PowExpression "pow" [var_x; Native 2].
Definition x_meters_to_p : expr := Node PowExpression "pow" [x_meters; param_p].
Definition x_meters_to_y : expr := Node PowExpression "pow" [x_meters; var_y].
Definition x_meters_to_x_meters : expr :=
  Node PowExpression "pow" [x_meters; x_meters].
Definition three_lengths : expr :=
  Node SumExpression "sum"
    [ Node ProductExpression "prod" [var_x; m];
      Node ProductExpression "prod" [var_x; m_up];
      Node ProductExpression "prod" [var_x; m_down] ].
Definition sin_x_radians : expr := Node UnaryFunctionExpression "sin" [x_radians].
Definition sin_x_meters : expr := Node UnaryFunctionExpression "sin" [x_meters].
Definition asin_x : expr := Node UnaryFunctionExpression "asin" [var_x].
Definition erf_x : expr := Node UnaryFunctionExpression "erf" [var_x].
Definition f_of_nothing : expr := Node ExternalFunctionExpression "f" [].
Definition empty_linear : expr := Linear (Native 0) [] [].
Definition named_expression : expr :=
  Node (OtherExpression "_GeneralExpressionData") "e" [var_x].

(** A container over this registry, before any unit was asked for: the
    registry knows [meter], [kilogram], [radian] and [dimensionless]. *)
Definition lookup (item : string) : option unit_exponents :=
  if String.eqb item "meter" then Some u_meter
  else if String.eqb item "kilogram" then Some u_kilogram
  else if String.eqb item "radian" then Some u_radian
  else if String.eqb item "dimensionless" then Some u_dimensionless
  else None.

Definition fresh_container : Container.PyomoUnitsContainer :=
  {| Container.resolve := lookup;
     Container.attributes := ∅;
     Container.next_address := 0 |}.

End Example.

(** ** Vocabulary of the further properties *)

Section FurtherVocabulary.
Context {pint : PintLibrary} {pyomo : ExpressionSystem}.
Variable tolerance : Q.

(** [a] is one of the [args] of the node [e]. *)
Inductive child_of : expr -> expr -> Prop :=
  | child_of_node t name args a : In a args -> child_of a (Node t name args).

(** [s] is reached from [e] by going down through [args]. *)
Definition subexpression (s e : expr) : Prop := rtc child_of s e.

(** The unit of one term [c * v] of a linear expression. *)
Definition linear_term (c v : expr * pint_unit) : expr * pint_unit :=
  if equivalent tolerance (snd c) pint_dimensionless then v
  else if equivalent tolerance (snd v) pint_dimensionless then c
  else multiply c v.

Fixpoint linear_terms (cs vs : list (expr * pint_unit))
    : list (expr * pint_unit) :=
  match cs, vs with
  | c :: cs', v :: vs' => linear_term c v :: linear_terms cs' vs'
  | _, _ => []
  end.

(** The outcome of comparing every term with the first one. *)
Definition agree_with_first (node : expr) (terms : list (expr * pint_unit))
    : result unit_tuple :=
  match terms with
  | [] => Raise IndexError
  | first :: rest =>
      match first_mismatch tolerance (snd first) rest with
      | None => Ok (typed first)
      | Some c =>
          Raise (InconsistentUnitsError (Pint (snd first)) (Pint (snd c))
                   [Text "Error in units found in expression: ";
                    Str_expr node])
      end
  end.

End FurtherVocabulary.

Definition reciprocal_types : list node_type :=
  [ReciprocalExpression; NPV_ReciprocalExpression].
Definition single_child_types : list node_type :=
  [NegationExpression; NPV_NegationExpression;
   AbsExpression; NPV_AbsExpression].
Definition logarithm_functions : list string := ["log"; "log10"; "exp"].
Definition rounding_functions : list string := ["ceil"; "floor"].

Section ContainerVocabulary.
Context {pint : PintLibrary}.

(** Every unit stored on the container wraps what the registry resolves for
    its name, and was created before the next object will be. *)
Definition cache_consistent (self : Container.PyomoUnitsContainer) : Prop :=
  forall item unit,
    Container.attributes self !! item = Some unit ->
    Container.resolve self item = Some (Container._pint_unit unit)
    /\ Container.address unit < Container.next_address self.

(** Two names never share one object. *)
Definition cache_injective (self : Container.PyomoUnitsContainer) : Prop :=
  forall item1 item2 unit1 unit2,
    Container.attributes self !! item1 = Some unit1 ->
    Container.attributes self !! item2 = Some unit2 ->
    Container.address unit1 = Container.address unit2 ->
    item1 = item2.

End ContainerVocabulary.

(** * Properties *)

Section Properties.
Context {pint : PintLibrary} {pyomo : ExpressionSystem}.
Implicit Types (tol : Q) (node e : expr) (u : pint_unit).
#[local] Arguments _pint_units_equivalent : simpl never.

(** ** The walk is the recursion of the source *)

Lemma exitNode_Node_entry_point tol get1 get2 t name args data :
  exitNode tol get1 (Node t name args) data
  = exitNode tol get2 (Node t name args) data.
Proof.
  unfold exitNode; simpl.
  destruct t; reflexivity.
Qed.

Lemma exitNode_leaf_entry_point tol get1 get2 e data :
  is_leaf e = true -> exitNode tol get1 e data = exitNode tol get2 e data.
Proof. unfold exitNode; intros ->; reflexivity. Qed.

Lemma linear_term_units_ext tol get1 get2 linear_vars c_units_of :
  (forall e, get1 e = get2 e) ->
  linear_term_units tol get1 linear_vars c_units_of
  = linear_term_units tol get2 linear_vars c_units_of.
Proof.
  intros Hget. revert c_units_of.
  induction linear_vars as [|v linear_vars IH]; intros [|get_c c_units_of];
    simpl; try reflexivity.
  rewrite Hget, IH. reflexivity.
Qed.

(** [exitNode] only depends on what the entry point does. *)
Lemma exitNode_ext tol get1 get2 e data :
  (forall e', get1 e' = get2 e') ->
  exitNode tol get1 e data = exitNode tol get2 e data.
Proof.
  intros Hget.
  destruct e as [x|u|name|t name args|constant linear_coefs linear_vars];
    try (apply exitNode_leaf_entry_point; reflexivity).
  - apply exitNode_Node_entry_point.
  - unfold exitNode; simpl. unfold _get_unit_for_linear_expression.
    rewrite Hget, (map_ext _ _ Hget).
    rewrite (linear_term_units_ext tol get1 get2) by assumption.
    reflexivity.
Qed.

Lemma _get_units_tuple_eq e :
  _get_units_tuple e = walk_expression default_tolerance e.
Proof.
  unfold _get_units_tuple.
  destruct (walk_expression default_tolerance e) as [[? ?]|]; reflexivity.
Qed.

(** Post-order: the children first, from left to right, then [exitNode] on
    their results, [exitNode] itself re-entering through
    [_get_units_tuple]. *)
Lemma walk_expression_eq tol e :
  walk_expression tol e
  = match e with
    | Node _ _ args =>
        let! data := walk_children (walk_expression tol) args in
        exitNode tol _get_units_tuple e data
    | _ => exitNode tol _get_units_tuple e []
    end.
Proof.
  destruct e as [x|u|name|t name args|constant linear_coefs linear_vars];
    try reflexivity.
  - simpl. destruct (walk_children _ args); simpl; [|reflexivity].
    apply exitNode_Node_entry_point.
  - rewrite (exitNode_ext tol _get_units_tuple
               (walk_expression default_tolerance))
      by apply _get_units_tuple_eq.
    reflexivity.
Qed.

(** ** The equivalence test *)

Lemma _pint_units_equivalent_Pint tol u1 u2 :
  _pint_units_equivalent tol (Pint u1) (Pint u2) = Ok (equivalent tol u1 u2).
Proof.
  unfold _pint_units_equivalent, equivalent.
  destruct (pint_eqb u1 u2); simpl; [reflexivity|].
  destruct (same_dimensionality u1 u2 && _); reflexivity.
Qed.

(** The tuple [exitNode] returns is the one the method returned. *)
Lemma repack (m : result unit_tuple) :
  (let! (pyomo_unit, pint_unit) := m in Ok (pyomo_unit, pint_unit)) = m.
Proof. destruct m as [[? ?]|]; reflexivity. Qed.

Lemma exitNode_dispatch tol get t name args data node_func :
  node_type_method_map tol get t = Some node_func ->
  exitNode tol get (Node t name args) data = node_func (Node t name args) data.
Proof. unfold exitNode; simpl; intros ->. apply repack. Qed.

(** ** [check_units_consistency] *)

(** C1, as the code has it: with [allow_exceptions=False] the function
    returns [True] exactly when the traversal returns, returns [False]
    exactly when the traversal raises an exception, of whatever class, and
    never raises itself. *)
Theorem check_units_consistency_swallows_every_exception e :
  (check_units_consistency e (PyBool false) = Ok true
   <-> exists r, _get_units_tuple e = Ok r)
  /\ (check_units_consistency e (PyBool false) = Ok false
      <-> exists err, _get_units_tuple e = Raise err)
  /\ (forall err, check_units_consistency e (PyBool false) <> Raise err).
Proof.
  unfold check_units_consistency; simpl.
  destruct (_get_units_tuple e) as [[pyomo_unit pint_unit]|err].
  - repeat split; try discriminate; eauto.
    intros [err Herr]; discriminate.
  - repeat split; try discriminate; eauto.
    intros [r Hr]; discriminate.
Qed.

(** C10: the mode is chosen by [allow_exceptions is True].  With any other
    object the function returns a boolean, [True] when the traversal returns
    and [False] when it raises; with [True] itself an exception of the
    traversal propagates and a traversal that returns gives [True]. *)
Theorem check_units_consistency_mode_by_identity e (allow_exceptions : pyobject) :
  (allow_exceptions <> PyBool true ->
   check_units_consistency e allow_exceptions
   = Ok (returns (_get_units_tuple e)))
  /\ (forall err, _get_units_tuple e = Raise err ->
      check_units_consistency e (PyBool true) = Raise err)
  /\ (forall r, _get_units_tuple e = Ok r ->
      check_units_consistency e (PyBool true) = Ok true).
Proof.
  unfold check_units_consistency. repeat split.
  - intros Hne.
    assert (is_True allow_exceptions = false) as ->.
    { destruct allow_exceptions as [[|]| | | |]; try reflexivity.
      contradiction Hne; reflexivity. }
    destruct (_get_units_tuple e) as [[? ?]|]; reflexivity.
  - intros err ->; reflexivity.
  - intros [? ?] ->; reflexivity.
Qed.

(** ** Power nodes *)

Ltac pow_node Ht :=
  destruct Ht as [<-|[<-|[]]];
  (rewrite exitNode_dispatch with (node_func := _get_unit_for_pow _)
     by reflexivity);
  unfold _get_unit_for_pow; rewrite ?_pint_units_equivalent_Pint; simpl.

(** C2, as the code has it: on a power node whose exponent and base both
    have units equivalent to dimensionless, inference returns, whatever the
    exponent is; the tuple it returns holds the Pyomo unit of the base and, in
    the place of the pint unit, the Pyomo unit of the exponent. *)
Theorem pow_dimensionless_base_returns_exponent_pyomo_unit
    tol get t name args base_unit u_base exponent_unit u_exponent :
  In t pow_types ->
  equivalent tol u_exponent pint_dimensionless = true ->
  equivalent tol u_base pint_dimensionless = true ->
  exitNode tol get (Node t name args)
    [(base_unit, Pint u_base); (exponent_unit, Pint u_exponent)]
  = Ok (base_unit, Pyomo exponent_unit).
Proof.
  intros Ht He Hb. pow_node Ht; rewrite He; simpl;
    rewrite Hb; reflexivity.
Qed.

(** C3: on a power node whose base has units, (a) an exponent whose unit is
    not equivalent to dimensionless raises [UnitsError]; with a dimensionless
    exponent, (b) an exponent node that is neither a native number nor fixed
    nor constant raises [UnitsError], and (c) an exponent that evaluates to
    [x] gives the unit of the base raised to [x], in both slots. *)
Theorem pow_dimensioned_base
    tol get t name base exponent base_unit u_base exponent_unit u_exponent :
  In t pow_types ->
  let node := Node t name [base; exponent] in
  let data := [(base_unit, Pint u_base); (exponent_unit, Pint u_exponent)] in
  (equivalent tol u_exponent pint_dimensionless = false ->
   exitNode tol get node data
   = Raise (UnitsError
              [Text "Error in sub-expression: "; Str_expr node;
               Text ". Exponents in a pow expression must be dimensionless."]))
  /\ (equivalent tol u_exponent pint_dimensionless = true ->
      equivalent tol u_base pint_dimensionless = false ->
      (is_nonpyomo_leaf exponent = false ->
       is_fixed exponent = false -> is_constant exponent = false ->
       exitNode tol get node data
       = Raise (UnitsError
                  [Text "The base of an exponent has units ";
                   Str_expr base_unit;
                   Text ", but the exponent is not a fixed numerical value."]))
      /\ (is_nonpyomo_leaf exponent = true \/ is_fixed exponent = true
          \/ is_constant exponent = true ->
          forall x, value exponent = Ok x ->
          exitNode tol get node data
          = Ok (pyomo_pow base_unit x, Pint (pint_pow u_base x)))).
Proof.
  intros Ht node data; subst node data. split; [|intros He Hb; split].
  - intros He. pow_node Ht; rewrite He; reflexivity.
  - intros Hleaf Hfixed Hconstant.
    pow_node Ht; rewrite He; simpl;
      rewrite Hb; simpl; rewrite Hleaf, Hfixed, Hconstant; reflexivity.
  - intros Hstatic x Hx.
    assert (negb (is_nonpyomo_leaf exponent)
            && negb (is_fixed exponent || is_constant exponent) = false) as Hguard.
    { destruct Hstatic as [->|[->| ->]]; simpl;
        rewrite ?orb_true_r, ?andb_false_r; reflexivity. }
    pow_node Ht; rewrite He; simpl;
      rewrite Hb; simpl; rewrite Hguard, Hx; reflexivity.
Qed.

(** ** Nodes whose children must agree *)

Lemma check_equivalent_to_spec tol node u rest :
  check_equivalent_to tol node (Pint u) (tuples rest)
  = match first_mismatch tol u rest with
    | None => Ok tt
    | Some c =>
        Raise (InconsistentUnitsError (Pint u) (Pint (snd c))
                 [Text "Error in units found in expression: "; Str_expr node])
    end.
Proof.
  induction rest as [|[unit_i u_i] rest IH]; simpl; [reflexivity|].
  rewrite _pint_units_equivalent_Pint; simpl.
  destruct (equivalent tol u u_i); simpl; [apply IH|reflexivity].
Qed.

Lemma pairwise_equivalent_no_mismatch tol u rest :
  pairwise_equivalent tol (u :: map snd rest) = true ->
  first_mismatch tol u rest = None.
Proof.
  unfold pairwise_equivalent; simpl.
  intros [[_ Hrow]%andb_prop _]%andb_prop.
  unfold first_mismatch.
  induction rest as [|c rest IH]; simpl in *; [reflexivity|].
  apply andb_prop in Hrow as [-> Hrow]; simpl. auto.
Qed.

(** C4, as the code has it: on an equality, inequality, ranged or sum node
    with at least one child, every later child is compared with the first
    one.  If each is equivalent to the first (so, in particular, if the
    children are pairwise equivalent) inference returns the unit of the first
    child; otherwise it raises [InconsistentUnitsError] naming the unit of
    the first child, the unit of the first child not equivalent to it, and
    the parent node. *)
Theorem equivalent_children_compared_with_first
    tol get t name args unit_1 u_1 rest :
  In t equivalent_children_types ->
  let node := Node t name args in
  exitNode tol get node (tuples ((unit_1, u_1) :: rest))
  = match first_mismatch tol u_1 rest with
    | None => Ok (unit_1, Pint u_1)
    | Some c =>
        Raise (InconsistentUnitsError (Pint u_1) (Pint (snd c))
                 [Text "Error in units found in expression: "; Str_expr node])
    end
  /\ (pairwise_equivalent tol (u_1 :: map snd rest) = true ->
      exitNode tol get node (tuples ((unit_1, u_1) :: rest))
      = Ok (unit_1, Pint u_1)).
Proof.
  intros Ht node.
  assert (exitNode tol get node (tuples ((unit_1, u_1) :: rest))
          = _get_unit_for_equivalent_children tol node
              (tuples ((unit_1, u_1) :: rest))) as ->.
  { destruct Ht as [<-|[<-|[<-|[<-|[<-|[]]]]]];
      apply exitNode_dispatch; reflexivity. }
  simpl. rewrite check_equivalent_to_spec.
  split.
  - destruct (first_mismatch tol u_1 rest); reflexivity.
  - intros Hall. rewrite (pairwise_equivalent_no_mismatch _ _ _ Hall).
    reflexivity.
Qed.

(** ** Products *)

Lemma product_loop_spec tol acc children :
  product_loop tol (option_map typed acc) (tuples children)
  = Ok (option_map typed
          (accumulate acc (List.filter (has_units tol) children))).
Proof.
  revert acc.
  induction children as [|c children IH]; intros acc; simpl.
  - destruct acc; reflexivity.
  - rewrite _pint_units_equivalent_Pint; simpl.
    unfold has_units at 1.
    destruct (equivalent tol (snd c) pint_dimensionless); simpl.
    + apply IH.
    + destruct acc as [a|]; simpl.
      * exact (IH (Some (multiply a c))).
      * exact (IH (Some c)).
Qed.

(** C5: on a product or monomial-term node with at least two children,
    inference returns; the unit is the product, from left to right and in
    both slots, of the units of the children that are not equivalent to
    dimensionless, and the dimensionless unit when every child is. *)
Theorem product_of_children_with_units tol get t name args children :
  In t product_types ->
  2 <= length children ->
  exitNode tol get (Node t name args) (tuples children)
  = Ok (typed (product_of_units tol children)).
Proof.
  intros Ht Hlen.
  assert (exitNode tol get (Node t name args) (tuples children)
          = _get_unit_for_product tol (Node t name args) (tuples children))
    as ->.
  { destruct Ht as [<-|[<-|[<-|[]]]]; apply exitNode_dispatch; reflexivity. }
  unfold _get_unit_for_product, tuples.
  rewrite length_map.
  destruct (Nat.ltb_spec 1 (length children)) as [_|Hshort]; [|lia]; simpl.
  change (product_loop tol None (map typed children))
    with (product_loop tol (option_map typed None) (tuples children)).
  rewrite product_loop_spec; simpl.
  unfold product_of_units.
  destruct (List.filter (has_units tol) children) as [|c cs]; simpl.
  - reflexivity.
  - destruct (fold_left (multiply) cs c); reflexivity.
Qed.

(** ** Opaque nodes: external functions and item access *)

Lemma opaque_dispatch tol get t name args data :
  In t opaque_types ->
  exitNode tol get (Node t name args) data
  = _get_dimensionless_with_dimensionless_children tol (Node t name args) data.
Proof.
  intros [<-|[<-|[<-|[]]]]; apply exitNode_dispatch; reflexivity.
Qed.

Lemma last_cons_default {A : Type} (a : A) (l : list A) (d : A) :
  List.last (a :: l) d = List.last l a.
Proof.
  revert a d. induction l as [|b l IH]; intros a d; [reflexivity|].
  change (List.last (a :: b :: l) d) with (List.last (b :: l) d).
  rewrite !IH. reflexivity.
Qed.

Lemma dimensionless_children_loop_spec tol node bound children :
  dimensionless_children_loop tol node (option_map typed bound)
    (tuples children)
  = match List.find (has_units tol) children with
    | Some c =>
        Raise (UnitsError
                 [Text "Expected dimensionless units in "; Str_expr node;
                  Text ", but found "; Str_expr (fst c); Text "."])
    | None =>
        Ok (option_map typed
              (match children with
               | [] => bound
               | c :: cs => Some (List.last cs c)
               end))
    end.
Proof.
  revert bound.
  induction children as [|c children IH]; intros bound; simpl; [reflexivity|].
  rewrite _pint_units_equivalent_Pint; simpl.
  unfold has_units at 1.
  destruct (equivalent tol (snd c) pint_dimensionless); simpl; [|reflexivity].
  etransitivity; [exact (IH (Some c))|].
  destruct (List.find (has_units tol) children); [reflexivity|].
  destruct children as [|c' children]; [reflexivity|].
  rewrite (last_cons_default c' children c). reflexivity.
Qed.

(** X25: the part of the rule for opaque nodes that the code does implement:
    with at least one child, the first child with units raises [UnitsError]
    and otherwise the tuple of the last child is returned. *)
Lemma opaque_node_with_children tol get t name args c children :
  In t opaque_types ->
  let node := Node t name args in
  exitNode tol get node (tuples (c :: children))
  = match List.find (has_units tol) (c :: children) with
    | Some c' =>
        Raise (UnitsError
                 [Text "Expected dimensionless units in "; Str_expr node;
                  Text ", but found "; Str_expr (fst c'); Text "."])
    | None => Ok (typed (List.last children c))
    end.
Proof.
  intros Ht node. subst node. rewrite opaque_dispatch by assumption.
  unfold _get_dimensionless_with_dimensionless_children.
  rewrite (dimensionless_children_loop_spec tol _ None (c :: children)).
  destruct (List.find (has_units tol) (c :: children)); [reflexivity|].
  simpl. reflexivity.
Qed.

(** C6, as the code has it: on an external-function or item-access node
    without children the loop variables are never bound, and inference
    raises [UnboundLocalError] rather than returning dimensionless. *)
Theorem opaque_node_without_children_raises tol get t name :
  In t opaque_types ->
  exitNode tol get (Node t name []) [] = Raise (UnboundLocalError "pyomo_unit")
  /\ _get_units_tuple (Node t name []) = Raise (UnboundLocalError "pyomo_unit").
Proof.
  intros Ht.
  assert (forall tol' get',
             exitNode tol' get' (Node t name []) []
             = Raise (UnboundLocalError "pyomo_unit")) as Hexit.
  { intros tol' get'. rewrite opaque_dispatch by assumption. reflexivity. }
  split; [apply Hexit|].
  rewrite _get_units_tuple_eq, walk_expression_eq. simpl. apply Hexit.
Qed.

(** ** Unary functions *)

Lemma unary_dispatch tol get t name args data :
  In t unary_function_types ->
  exitNode tol get (Node t name args) data
  = _get_unit_for_unary_function tol (Node t name args) data.
Proof.
  intros [<-|[<-|[]]]; apply exitNode_dispatch; reflexivity.
Qed.

(** C7: [sin], [cos], [tan], [sinh], [cosh] and [tanh] return dimensionless
    when the unit of the argument is equivalent to radians and raise
    [UnitsError] otherwise; [asin], [acos], [atan], [asinh], [acosh] and
    [atanh] return radians when the unit of the argument is equivalent to
    dimensionless and raise [UnitsError] otherwise. *)
Theorem trigonometric_functions tol get t name args unit_1 u_1 :
  In t unary_function_types ->
  let node := Node t name args in
  (In name trig_functions ->
   exitNode tol get node [(unit_1, Pint u_1)]
   = if equivalent tol u_1 pint_radians
     then Ok (container_dimensionless, Pint pint_dimensionless)
     else Raise (UnitsError
                   [Text "Expected radians in argument to function in expression ";
                    Str_expr node; Text ", but found "; Str_expr unit_1]))
  /\ (In name inverse_trig_functions ->
      exitNode tol get node [(unit_1, Pint u_1)]
      = if equivalent tol u_1 pint_dimensionless
        then Ok (container_radians, Pint pint_radians)
        else Raise (UnitsError
                      [Text "Expected dimensionless argument to function in expression ";
                       Str_expr node; Text ", but found "; Str_expr unit_1])).
Proof.
  intros Ht node; subst node.
  rewrite unary_dispatch by assumption.
  unfold _get_unit_for_unary_function; simpl.
  split.
  - intros [<-|[<-|[<-|[<-|[<-|[<-|[]]]]]]]; simpl;
      rewrite _pint_units_equivalent_Pint; simpl;
      destruct (equivalent tol u_1 pint_radians); reflexivity.
  - intros [<-|[<-|[<-|[<-|[<-|[<-|[]]]]]]]; simpl;
      rewrite _pint_units_equivalent_Pint; simpl;
      destruct (equivalent tol u_1 pint_dimensionless); reflexivity.
Qed.

(** ** Nodes and functions outside the dispatch tables *)

Lemma node_type_absent tol get tol' get' t :
  node_type_method_map tol get t = None ->
  node_type_method_map tol' get' t = None.
Proof. destruct t; simpl; intros H; try discriminate H; reflexivity. Qed.

Lemma unary_function_absent tol tol' name :
  dict_get (unary_function_method_map tol) name = None ->
  dict_get (unary_function_method_map tol') name = None.
Proof.
  unfold unary_function_method_map; cbn [dict_get].
  repeat (destruct (String.eqb _ name); [intros H; discriminate H|]).
  reflexivity.
Qed.

Lemma exitNode_unhandled_type tol get t name args data :
  node_type_method_map tol get t = None ->
  exitNode tol get (Node t name args) data
  = Raise (TypeError
             [Text "An unhandled expression node type: "; Str_type t;
              Text " was encountered while retrieving the units of expression"]).
Proof. unfold exitNode; simpl; intros ->; reflexivity. Qed.

Lemma exitNode_unhandled_function tol get t name args data :
  In t unary_function_types ->
  dict_get (unary_function_method_map tol) name = None ->
  exitNode tol get (Node t name args) data
  = if negb (length data =? 1)%nat then Raise AssertionError
    else Raise (TypeError
                  [Text "An unhandled unary function: "; Text name;
                   Text " was encountered while retrieving the units of expression ";
                   Str_expr (Node t name args)]).
Proof.
  intros Ht Hname. rewrite unary_dispatch by assumption.
  unfold _get_unit_for_unary_function; cbn [getname]. rewrite Hname.
  reflexivity.
Qed.

(** C8: a node that is not a leaf and whose class is not a key of
    [node_type_method_map] raises a [TypeError] that names the class, and a
    unary-function node whose name is not a key of
    [unary_function_method_map] raises a [TypeError] that names the function
    (its single argument having been walked); in neither case does inference
    return a unit for the node. *)
Theorem unhandled_nodes_raise_TypeError tol get t name args data :
  let node := Node t name args in
  (node_type_method_map tol get t = None ->
   exitNode tol get node data
   = Raise (TypeError
              [Text "An unhandled expression node type: "; Str_type t;
               Text " was encountered while retrieving the units of expression"])
   /\ forall r, _get_units_tuple node <> Ok r)
  /\ (In t unary_function_types ->
      dict_get (unary_function_method_map tol) name = None ->
      (length data = 1 ->
       exitNode tol get node data
       = Raise (TypeError
                  [Text "An unhandled unary function: "; Text name;
                   Text " was encountered while retrieving the units of expression ";
                   Str_expr node]))
      /\ forall r, _get_units_tuple node <> Ok r).
Proof.
  intros node; subst node. split.
  - intros Ht. split; [apply exitNode_unhandled_type, Ht|].
    intros r. rewrite _get_units_tuple_eq, walk_expression_eq.
    destruct (walk_children _ args) as [data'|err]; simpl; [|discriminate].
    rewrite exitNode_unhandled_type
      by (eapply node_type_absent, Ht).
    discriminate.
  - intros Ht Hname. split.
    + intros Hlen. rewrite exitNode_unhandled_function by assumption.
      rewrite Hlen. reflexivity.
    + intros r. rewrite _get_units_tuple_eq, walk_expression_eq.
      destruct (walk_children _ args) as [data'|err]; simpl; [|discriminate].
      rewrite exitNode_unhandled_function
        by (try assumption; eapply unary_function_absent, Hname).
      destruct (negb _); discriminate.
Qed.

End Properties.

(** ** The units container *)

Section ContainerProperties.
Context {pint : PintLibrary}.
Implicit Types (self : Container.PyomoUnitsContainer) (item : string).

Lemma getattr_cached self item unit :
  Container.attributes self !! item = Some unit ->
  Container.getattr self item = (Ok unit, self).
Proof. unfold Container.getattr; intros ->; reflexivity. Qed.

(** C9, as the code has it: for a name that is not yet an attribute of the
    container, the lookup raises [AttributeError] when the registry does not
    know the name, and when it does the lookup returns a unit wrapping the
    registry's unit and stores it, so that the next lookup returns the very
    same object and changes nothing. *)
Theorem container_attribute_lookup self item :
  Container.attributes self !! item = None ->
  (Container.resolve self item = None ->
   Container.getattr self item
   = (Raise (AttributeError
               [Text "Attribute "; Text item; Text " not found."]), self))
  /\ (forall u, Container.resolve self item = Some u ->
      exists unit self',
        Container.getattr self item = (Ok unit, self')
        /\ Container._pint_unit unit = u
        /\ Container.getattr self' item = (Ok unit, self')).
Proof.
  intros Hfresh. unfold Container.getattr at 1 2. rewrite Hfresh.
  unfold Container.__getattr__, Container.ureg_getattr. split.
  - intros ->. reflexivity.
  - intros u ->. simpl. eexists _, _. split; [reflexivity|].
    split; [reflexivity|].
    apply getattr_cached. simpl. apply lookup_insert_eq.
Qed.

End ContainerProperties.

(** * Further properties of the visitor *)

Section TraversalProperties.
Context {pint : PintLibrary} {pyomo : ExpressionSystem}.
Implicit Types (tol : Q) (node e : expr) (u : pint_unit).
#[local] Arguments _pint_units_equivalent : simpl never.

(** ** The order of the traversal *)

Lemma walk_children_Ok (walk : expr -> result unit_tuple) args data :
  walk_children walk args = Ok data
  <-> Forall2 (fun a r => walk a = Ok r) args data.
Proof.
  revert data. induction args as [|a args IH]; intros data; simpl.
  - split.
    + intros [= <-]. constructor.
    + intros H. inversion H. reflexivity.
  - split.
    + destruct (walk a) as [r|] eqn:Ha; simpl; [|discriminate].
      destruct (walk_children walk args) as [rs|] eqn:Hargs; simpl;
        [|discriminate].
      intros [= <-]. constructor; [assumption|]. apply IH. reflexivity.
    + intros H. inversion H as [|a' r args' rs Ha Hargs]; subst.
      rewrite Ha; simpl. apply IH in Hargs. rewrite Hargs. reflexivity.
Qed.

Lemma walk_children_Raise (walk : expr -> result unit_tuple)
    before failing after err :
  Forall (fun a => returns (walk a) = true) before ->
  walk failing = Raise err ->
  walk_children walk (before ++ failing :: after)%list = Raise err.
Proof.
  intros Hbefore Hfailing.
  induction Hbefore as [|a before Ha _ IH]; simpl.
  - rewrite Hfailing. reflexivity.
  - destruct (walk a); [|discriminate Ha]. simpl. rewrite IH. reflexivity.
Qed.

Lemma _get_units_tuple_Node t name args :
  _get_units_tuple (Node t name args)
  = let! data := walk_children _get_units_tuple args in
    exitNode default_tolerance _get_units_tuple (Node t name args) data.
Proof.
  rewrite _get_units_tuple_eq, walk_expression_eq.
  assert (walk_children (walk_expression default_tolerance) args
          = walk_children _get_units_tuple args) as ->; [|reflexivity].
  induction args as [|a args IH]; simpl; [reflexivity|].
  rewrite IH, <- _get_units_tuple_eq. reflexivity.
Qed.


(** X2: the exception of the first child, in order, that has no units is the
    exception of the node, whatever the class of the node and whatever the
    later children are; [exitNode] is not reached. *)
Theorem first_failing_child_decides t name before failing after err :
  Forall (fun a => returns (_get_units_tuple a) = true) before ->
  _get_units_tuple failing = Raise err ->
  _get_units_tuple (Node t name (before ++ failing :: after)%list) = Raise err.
Proof.
  intros Hbefore Hfailing. rewrite _get_units_tuple_Node.
  rewrite (walk_children_Raise _get_units_tuple before failing after err)
    by assumption.
  reflexivity.
Qed.

Lemma child_has_units a e r :
  child_of a e -> _get_units_tuple e = Ok r ->
  exists r', _get_units_tuple a = Ok r'.
Proof.
  intros [t name args a' Hin]. rewrite _get_units_tuple_Node.
  destruct (walk_children _get_units_tuple args) as [data|] eqn:Hdata;
    [|discriminate].
  intros _. apply walk_children_Ok in Hdata.
  induction Hdata as [|b r0 args data Hb _ IH]; [destruct Hin|].
  destruct Hin as [<-|Hin]; eauto.
Qed.

(** X3: no partial results: when an expression has units, so has every
    expression below it. *)
Theorem subexpressions_have_units s e r :
  subexpression s e ->
  _get_units_tuple e = Ok r ->
  exists r', _get_units_tuple s = Ok r'.
Proof.
  intros Hsub. revert r.
  induction Hsub as [e|s mid e Hchild _ IH]; intros r He; [eauto|].
  destruct (IH r He) as [r' Hmid].
  exact (child_has_units s mid r' Hchild Hmid).
Qed.

(** X4: a leaf always has units: a unit is its own unit, and anything else
    (a number, a variable, a parameter) is dimensionless. *)
Theorem leaf_units e :
  is_leaf e = true ->
  _get_units_tuple e
  = Ok (match e with
        | PyomoUnit u => (e, Pint u)
        | _ => (container_dimensionless, Pint pint_dimensionless)
        end).
Proof.
  intros Hleaf. rewrite _get_units_tuple_eq, walk_expression_eq.
  destruct e as [x|u|name|t name args|constant linear_coefs linear_vars];
    try reflexivity; discriminate Hleaf.
Qed.

(** X5: the two entry points agree: [check_units_consistency] with
    [allow_exceptions=True] raises what [get_units] raises, returns [True]
    when [get_units] returns, and never returns [False]. *)
Theorem check_units_consistency_follows_get_units e :
  (forall err, get_units e = Raise err
               <-> check_units_consistency e (PyBool true) = Raise err)
  /\ ((exists unit, get_units e = Ok unit)
      <-> check_units_consistency e (PyBool true) = Ok true)
  /\ check_units_consistency e (PyBool true) <> Ok false.
Proof.
  unfold get_units, check_units_consistency; simpl.
  destruct (_get_units_tuple e) as [[pyomo_unit pint_unit]|err']; simpl.
  - repeat split; try discriminate; eauto.
  - repeat split; try discriminate; try (intros [= ->]; reflexivity).
    intros [unit Hunit]; discriminate.
Qed.

End TraversalProperties.

Section RuleProperties.
Context {pint : PintLibrary} {pyomo : ExpressionSystem}.
Implicit Types (tol : Q) (node e : expr) (u : pint_unit).
#[local] Arguments _pint_units_equivalent : simpl never.

(** ** The rules for one child *)

(** X6: a reciprocal node keeps the tuple of a child whose unit is
    equivalent to dimensionless, and otherwise returns [1.0 / unit] in both
    slots; it never raises. *)
Theorem reciprocal_units tol get t name args unit_1 u_1 :
  In t reciprocal_types ->
  exitNode tol get (Node t name args) [(unit_1, Pint u_1)]
  = if equivalent tol u_1 pint_dimensionless
    then Ok (unit_1, Pint u_1)
    else Ok (pyomo_rdiv unit_1, Pint (pint_rdiv u_1)).
Proof.
  intros Ht.
  assert (exitNode tol get (Node t name args) [(unit_1, Pint u_1)]
          = _get_unit_for_reciprocal tol (Node t name args)
              [(unit_1, Pint u_1)]) as ->.
  { destruct Ht as [<-|[<-|[]]]; apply exitNode_dispatch; reflexivity. }
  unfold _get_unit_for_reciprocal.
  rewrite _pint_units_equivalent_Pint; simpl.
  destruct (equivalent tol u_1 pint_dimensionless); reflexivity.
Qed.

(** X7: negation, absolute value, [ceil] and [floor] hand the tuple of
    their child on unchanged, whatever it holds. *)
Theorem single_child_passes_through tol get t name args (child : unit_tuple) :
  In t single_child_types
  \/ (In t unary_function_types /\ In name rounding_functions) ->
  exitNode tol get (Node t name args) [child] = Ok child.
Proof.
  destruct child as [pyomo_unit pint_unit].
  intros [Ht|[Ht Hname]].
  - destruct Ht as [<-|[<-|[<-|[<-|[]]]]]; reflexivity.
  - rewrite unary_dispatch by assumption.
    destruct Hname as [<-|[<-|[]]]; reflexivity.
Qed.

(** X8: [sqrt] of an argument whose unit is equivalent to dimensionless is
    dimensionless; otherwise it is the unit of the argument to the power
    [0.5], in both slots. *)
Theorem sqrt_units tol get t args unit_1 u_1 :
  In t unary_function_types ->
  exitNode tol get (Node t "sqrt" args) [(unit_1, Pint u_1)]
  = if equivalent tol u_1 pint_dimensionless
    then Ok (container_dimensionless, Pint pint_dimensionless)
    else Ok (pyomo_pow unit_1 (1 # 2), Pint (pint_pow u_1 (1 # 2))).
Proof.
  intros Ht. rewrite unary_dispatch by assumption.
  unfold _get_unit_for_unary_function; simpl.
  rewrite _pint_units_equivalent_Pint; simpl.
  destruct (equivalent tol u_1 pint_dimensionless); reflexivity.
Qed.

(** X9: [log], [log10] and [exp] want an argument whose unit is equivalent
    to dimensionless and raise [UnitsError] otherwise; what they return is
    the tuple of the argument itself. *)
Theorem logarithm_units tol get t name args unit_1 u_1 :
  In t unary_function_types ->
  In name logarithm_functions ->
  let node := Node t name args in
  exitNode tol get node [(unit_1, Pint u_1)]
  = if equivalent tol u_1 pint_dimensionless
    then Ok (unit_1, Pint u_1)
    else Raise (UnitsError
                  [Text "Expected dimensionless units in "; Str_expr node;
                   Text ", but found "; Str_expr unit_1; Text "."]).
Proof.
  intros Ht Hname node; subst node. rewrite unary_dispatch by assumption.
  unfold _get_unit_for_unary_function.
  destruct Hname as [<-|[<-|[<-|[]]]]; simpl;
    unfold _get_dimensionless_with_dimensionless_children; simpl;
    rewrite _pint_units_equivalent_Pint; simpl;
    destruct (equivalent tol u_1 pint_dimensionless); reflexivity.
Qed.

(** X10: a conditional takes the unit of its [then] branch when the units of
    [then] and [else] are equivalent and raises [InconsistentUnitsError],
    naming the Pyomo units of the two branches and the node, when they are
    not; the unit of the condition plays no part. *)
Theorem expr_if_units tol get name args (condition : unit_tuple)
    then_unit u_then else_unit u_else :
  let node := Node Expr_ifExpression name args in
  exitNode tol get node
    [condition; (then_unit, Pint u_then); (else_unit, Pint u_else)]
  = if equivalent tol u_then u_else
    then Ok (then_unit, Pint u_then)
    else Raise (InconsistentUnitsError (Pyomo then_unit) (Pyomo else_unit)
                  [Text "Error in units found in expression: ";
                   Str_expr node]).
Proof.
  intros node; subst node.
  rewrite exitNode_dispatch with (node_func := _get_unit_for_expr_if tol)
    by reflexivity.
  unfold _get_unit_for_expr_if.
  rewrite _pint_units_equivalent_Pint; simpl.
  destruct (equivalent tol u_then u_else); reflexivity.
Qed.

(** ** The number of children *)

Lemma length_one {A : Type} (l : list A) :
  length l <> 1 -> match l with [_] => False | _ => True end.
Proof. destruct l as [|? [|? ?]]; simpl; intros H; auto. Qed.

(** X11: every rule checks the number of children it is given before
    anything else and raises [AssertionError] on another number: at least
    one for the nodes whose children must agree, at least two for a product,
    exactly two for a power, exactly one for a reciprocal, a negation, an
    absolute value and a unary function (known by name or not), exactly
    three for a conditional. *)
Theorem wrong_number_of_children tol get t name args data :
  let node := Node t name args in
  (In t equivalent_children_types -> data = [] ->
   exitNode tol get node data = Raise AssertionError)
  /\ (In t product_types -> length data < 2 ->
      exitNode tol get node data = Raise AssertionError)
  /\ (In t pow_types -> length data <> 2 ->
      exitNode tol get node data = Raise AssertionError)
  /\ (In t reciprocal_types \/ In t single_child_types
      \/ In t unary_function_types ->
      length data <> 1 ->
      exitNode tol get node data = Raise AssertionError)
  /\ (t = Expr_ifExpression -> length data <> 3 ->
      exitNode tol get node data = Raise AssertionError).
Proof.
  intros node; subst node. repeat split.
  - intros Ht ->.
    destruct Ht as [<-|[<-|[<-|[<-|[<-|[]]]]]]; reflexivity.
  - intros Ht Hlen.
    assert (negb (1 <? length data)%nat = true) as Hshort.
    { destruct (Nat.ltb_spec 1 (length data)); [lia|reflexivity]. }
    destruct Ht as [<-|[<-|[<-|[]]]];
      (rewrite exitNode_dispatch with (node_func := _get_unit_for_product tol)
         by reflexivity);
      unfold _get_unit_for_product; rewrite Hshort; reflexivity.
  - intros Ht Hlen.
    destruct Ht as [<-|[<-|[]]];
      (rewrite exitNode_dispatch with (node_func := _get_unit_for_pow tol)
         by reflexivity);
      destruct data as [|[? ?] [|[? ?] [|? ?]]]; try reflexivity;
      contradiction Hlen; reflexivity.
  - intros Ht Hlen. apply length_one in Hlen.
    destruct Ht as [Ht|[Ht|Ht]].
    + destruct Ht as [<-|[<-|[]]];
        (rewrite exitNode_dispatch
           with (node_func := _get_unit_for_reciprocal tol) by reflexivity);
        destruct data as [|[? ?] [|? ?]]; try reflexivity; destruct Hlen.
    + destruct Ht as [<-|[<-|[<-|[<-|[]]]]];
        (rewrite exitNode_dispatch
           with (node_func := _get_unit_for_single_child) by reflexivity);
        destruct data as [|[? ?] [|? ?]]; try reflexivity; destruct Hlen.
    + rewrite unary_dispatch by assumption.
      unfold _get_unit_for_unary_function.
      destruct data as [|? [|? ?]]; try reflexivity; destruct Hlen.
  - intros -> Hlen.
    rewrite exitNode_dispatch with (node_func := _get_unit_for_expr_if tol)
      by reflexivity.
    destruct data as [|? [|[? ?] [|[? ?] [|? ?]]]]; try reflexivity.
    contradiction Hlen; reflexivity.
Qed.

(** X12: the entry of [node_type_method_map] for [IndexTemplate] can never
    return: a node that reaches the table is not a leaf, and
    [_get_dimensionless_no_children] asserts that it is. *)
Theorem index_template_entry_never_returns tol get name args data :
  exitNode tol get (Node IndexTemplate name args) data = Raise AssertionError.
Proof.
  rewrite exitNode_dispatch
    with (node_func := _get_dimensionless_no_children) by reflexivity.
  unfold _get_dimensionless_no_children.
  destruct (negb (length data =? 0)%nat); reflexivity.
Qed.

(** ** What the two tables cover *)


End RuleProperties.

Section ComparisonProperties.
Context {pint : PintLibrary} {pyomo : ExpressionSystem}.
Implicit Types (tol : Q) (node e : expr) (u : pint_unit).
#[local] Arguments _pint_units_equivalent : simpl never.

(** ** The tolerance *)

Lemma Qltb_le (x tol tol' : Q) :
  (tol <= tol')%Q -> Qltb x tol = true -> Qltb x tol' = true.
Proof.
  unfold Qltb. intros Hle Hlt.
  apply negb_true_iff in Hlt. apply negb_true_iff.
  destruct (Qle_bool tol' x) eqn:Hle'; [|reflexivity].
  apply Qle_bool_iff in Hle'.
  assert (Qle_bool tol x = true) as Habs
    by (apply Qle_bool_iff; eapply Qle_trans; eassumption).
  congruence.
Qed.

Lemma equivalent_le tol tol' u1 u2 :
  (tol <= tol')%Q ->
  equivalent tol u1 u2 = true -> equivalent tol' u1 u2 = true.
Proof.
  unfold equivalent. intros Hle.
  destruct (pint_eqb u1 u2); simpl; [reflexivity|].
  destruct (same_dimensionality u1 u2); simpl; [|discriminate].
  apply Qltb_le, Hle.
Qed.

Lemma first_mismatch_le tol tol' u rest :
  (tol <= tol')%Q ->
  first_mismatch tol u rest = None -> first_mismatch tol' u rest = None.
Proof.
  intros Hle. unfold first_mismatch.
  induction rest as [|c rest IH]; simpl; [reflexivity|].
  destruct (equivalent tol u (snd c)) eqn:Hc; simpl; [|discriminate].
  rewrite (equivalent_le tol tol' _ _ Hle Hc). simpl. exact IH.
Qed.

Lemma equivalent_children_dispatch tol get t name args data :
  In t equivalent_children_types ->
  exitNode tol get (Node t name args) data
  = _get_unit_for_equivalent_children tol (Node t name args) data.
Proof.
  intros [<-|[<-|[<-|[<-|[<-|[]]]]]]; apply exitNode_dispatch; reflexivity.
Qed.

(** X14: a larger tolerance accepts more: two units equivalent within a
    tolerance are equivalent within any larger one, and a node whose
    children must agree and that has units under a tolerance has the same
    units under any larger one. *)
Theorem larger_tolerance_accepts_more
    tol tol' get t name args children r :
  (tol <= tol')%Q ->
  In t equivalent_children_types ->
  (forall u1 u2, equivalent tol u1 u2 = true -> equivalent tol' u1 u2 = true)
  /\ (exitNode tol get (Node t name args) (tuples children) = Ok r ->
      exitNode tol' get (Node t name args) (tuples children) = Ok r).
Proof.
  intros Hle Ht. split; [intros u1 u2; apply equivalent_le, Hle|].
  rewrite !equivalent_children_dispatch by assumption.
  destruct children as [|[unit_1 u_1] rest]; simpl; [discriminate|].
  rewrite !check_equivalent_to_spec.
  destruct (first_mismatch tol u_1 rest) eqn:Hfirst; simpl; [discriminate|].
  rewrite (first_mismatch_le tol tol' _ _ Hle Hfirst). trivial.
Qed.

(** ** Products *)

Lemma _get_unit_for_product_spec tol node children :
  2 <= length children ->
  _get_unit_for_product tol node (tuples children)
  = Ok (typed (product_of_units tol children)).
Proof.
  intros Hlen. unfold _get_unit_for_product, tuples.
  rewrite length_map.
  destruct (Nat.ltb_spec 1 (length children)) as [_|Hshort]; [|lia]; simpl.
  change (product_loop tol None (map typed children))
    with (product_loop tol (option_map typed None) (tuples children)).
  rewrite product_loop_spec; simpl.
  unfold product_of_units.
  destruct (List.filter (has_units tol) children) as [|c cs]; simpl;
    [reflexivity|].
  destruct (fold_left multiply cs c); reflexivity.
Qed.

Lemma product_dispatch tol get t name args data :
  In t product_types ->
  exitNode tol get (Node t name args) data
  = _get_unit_for_product tol (Node t name args) data.
Proof.
  intros [<-|[<-|[<-|[]]]]; apply exitNode_dispatch; reflexivity.
Qed.

(** X15: a child whose unit is equivalent to dimensionless is neutral in a
    product: the product has the units it has without that child, wherever
    the child stands. *)
Theorem dimensionless_child_is_neutral
    tol get t name args args' before d after :
  In t product_types ->
  has_units tol d = false ->
  2 <= length (before ++ after)%list ->
  exitNode tol get (Node t name args) (tuples (before ++ d :: after)%list)
  = exitNode tol get (Node t name args') (tuples (before ++ after)%list).
Proof.
  intros Ht Hd Hlen.
  rewrite !product_dispatch by assumption.
  rewrite !_get_unit_for_product_spec
    by (try assumption; rewrite length_app in *; simpl; lia).
  unfold product_of_units.
  rewrite !List.filter_app; simpl. rewrite Hd. reflexivity.
Qed.

(** ** Linear expressions *)

Lemma linear_term_units_spec tol get linear_vars vs linear_coefs cs :
  Forall2 (fun e v => get e = Ok (typed v)) linear_vars vs ->
  Forall2 (fun e c => get e = Ok (typed c)) linear_coefs cs ->
  length linear_coefs = length linear_vars ->
  linear_term_units tol get linear_vars (map get linear_coefs)
  = Ok (tuples (linear_terms tol cs vs)).
Proof.
  intros Hvs. revert linear_coefs cs.
  induction Hvs as [|e v linear_vars vs Hv _ IH];
    intros linear_coefs cs Hcs Hlen.
  - destruct Hcs; [reflexivity|discriminate Hlen].
  - destruct Hcs as [|e' c linear_coefs cs Hc Hcs]; [discriminate Hlen|].
    simpl. rewrite Hv, Hc; simpl.
    rewrite !_pint_units_equivalent_Pint; simpl.
    rewrite (IH linear_coefs cs Hcs) by (simpl in Hlen; lia).
    unfold linear_term.
    destruct (equivalent tol (snd c) pint_dimensionless); simpl;
      [reflexivity|].
    destruct (equivalent tol (snd v) pint_dimensionless); reflexivity.
Qed.

Lemma agree_with_first_spec tol node terms :
  match tuples terms with
  | [] => Raise IndexError
  | (pyomo_unit_0, pint_unit_0) :: rest =>
      let! _ := check_equivalent_to tol node pint_unit_0 rest in
      Ok (pyomo_unit_0, pint_unit_0)
  end
  = agree_with_first tol node terms.
Proof.
  destruct terms as [|first rest]; simpl; [reflexivity|].
  rewrite check_equivalent_to_spec.
  destruct (first_mismatch tol (snd first) rest); reflexivity.
Qed.

Lemma exitNode_Linear tol get constant linear_coefs linear_vars data :
  exitNode tol get (Linear constant linear_coefs linear_vars) data
  = _get_unit_for_linear_expression tol get
      (Linear constant linear_coefs linear_vars) data.
Proof. unfold exitNode; simpl. apply repack. Qed.

(** X16: the units of a linear expression.  The unit of a term is the unit
    of the variable when the coefficient is dimensionless, the unit of the
    coefficient when the variable is, and their product otherwise; the
    constant, when it is not zero, comes first; every term is compared with
    the first, whose unit is the result. *)
Theorem linear_expression_units
    tol get constant linear_coefs linear_vars cs vs :
  Forall2 (fun e c => get e = Ok (typed c)) linear_coefs cs ->
  Forall2 (fun e v => get e = Ok (typed v)) linear_vars vs ->
  length linear_coefs = length linear_vars ->
  let node := Linear constant linear_coefs linear_vars in
  (truth constant = false ->
   exitNode tol get node []
   = agree_with_first tol node (linear_terms tol cs vs))
  /\ (forall k, truth constant = true -> get constant = Ok (typed k) ->
      exitNode tol get node []
      = agree_with_first tol node (k :: linear_terms tol cs vs)).
Proof.
  intros Hcs Hvs Hlen node; subst node.
  rewrite exitNode_Linear. unfold _get_unit_for_linear_expression; simpl.
  assert (negb (length linear_coefs =? length linear_vars)%nat = false)
    as Hsame by (rewrite Hlen, Nat.eqb_refl; reflexivity).
  split.
  - intros ->; simpl. rewrite Hsame.
    rewrite (linear_term_units_spec tol get _ vs _ cs) by assumption.
    simpl. apply agree_with_first_spec.
  - intros k -> ->; simpl. rewrite Hsame.
    rewrite (linear_term_units_spec tol get _ vs _ cs) by assumption.
    simpl. apply (agree_with_first_spec tol _ (k :: _)).
Qed.

(** X17: the failures of a linear expression, in the order the code meets
    them: children handed in by the walker fail an assertion; an exception
    in the units of a constant that is not zero comes before everything
    else; coefficients and variables of different numbers fail an assertion;
    and an expression with neither terms nor constant raises [IndexError]. *)
Theorem linear_expression_failures
    tol get constant linear_coefs linear_vars data :
  let node := Linear constant linear_coefs linear_vars in
  (data <> [] -> exitNode tol get node data = Raise AssertionError)
  /\ (forall err, truth constant = true -> get constant = Raise err ->
      exitNode tol get node [] = Raise err)
  /\ (truth constant = false \/ (exists r, get constant = Ok r) ->
      length linear_coefs <> length linear_vars ->
      exitNode tol get node [] = Raise AssertionError)
  /\ (truth constant = false -> linear_coefs = [] -> linear_vars = [] ->
      exitNode tol get node [] = Raise IndexError).
Proof.
  intros node; subst node. rewrite !exitNode_Linear.
  unfold _get_unit_for_linear_expression. repeat split.
  - intros Hdata. destruct data; [contradiction Hdata; reflexivity|].
    reflexivity.
  - intros err -> ->. reflexivity.
  - intros Hconstant Hlen; simpl.
    assert (negb (length linear_coefs =? length linear_vars)%nat = true)
      as Hdiffer.
    { apply negb_true_iff, Nat.eqb_neq, Hlen. }
    destruct Hconstant as [->|[r Hr]]; simpl.
    + rewrite Hdiffer. reflexivity.
    + destruct (truth constant); simpl; rewrite ?Hr; simpl;
        rewrite Hdiffer; reflexivity.
  - intros -> -> ->. reflexivity.
Qed.

End ComparisonProperties.

Section CompositionProperties.
Context {pint : PintLibrary} {pyomo : ExpressionSystem}.
Implicit Types (tol : Q) (node e : expr) (u : pint_unit).
#[local] Arguments _pint_units_equivalent : simpl never.

Ltac pow_rule Ht :=
  destruct Ht as [<-|[<-|[]]];
  (rewrite exitNode_dispatch with (node_func := _get_unit_for_pow _)
     by reflexivity);
  unfold _get_unit_for_pow; rewrite ?_pint_units_equivalent_Pint; simpl.

(** X22: with a tolerance that is not positive only [==] is left of the
    test: two pint units are equivalent exactly when pint says they are
    equal (the magnitude of a difference is never negative). *)
Theorem nonpositive_tolerance_is_equality tol u1 u2 :
  (tol <= 0)%Q ->
  (0 <= abs_difference_magnitude u1 u2)%Q ->
  _pint_units_equivalent tol (Pint u1) (Pint u2) = Ok (pint_eqb u1 u2).
Proof.
  intros Htol Hmagnitude. rewrite _pint_units_equivalent_Pint.
  unfold equivalent, Qltb.
  assert (Qle_bool tol (abs_difference_magnitude u1 u2) = true) as ->
    by (apply Qle_bool_iff; eapply Qle_trans; eassumption).
  simpl. rewrite andb_false_r, orb_false_r. reflexivity.
Qed.

(** X23: a unit standing in the exponent counts as the fixed number [1.0]
    ([is_fixed] of a unit is true and calling it gives [1.0]): over a base
    with units, a dimensionless unit as exponent gives the unit of the base
    to the power [1.0]. *)
Theorem unit_in_the_exponent_counts_as_one
    tol get t name base u base_unit u_base :
  In t pow_types ->
  equivalent tol u pint_dimensionless = true ->
  equivalent tol u_base pint_dimensionless = false ->
  exitNode tol get (Node t name [base; PyomoUnit u])
    [(base_unit, Pint u_base); (PyomoUnit u, Pint u)]
  = Ok (pyomo_pow base_unit 1, Pint (pint_pow u_base 1)).
Proof.
  intros Ht Hexponent Hbase.
  pow_rule Ht; rewrite Hexponent; simpl; rewrite Hbase; reflexivity.
Qed.

(** X24: over an argument with units, [sqrt] is the power [0.5]: the square
    root of an expression has the units of the expression raised to the
    native number [0.5]. *)
Theorem sqrt_is_power_one_half
    tol get t t' name args base unit_1 u_1 :
  In t unary_function_types ->
  In t' pow_types ->
  equivalent tol pint_dimensionless pint_dimensionless = true ->
  equivalent tol u_1 pint_dimensionless = false ->
  exitNode tol get (Node t "sqrt" args) [(unit_1, Pint u_1)]
  = exitNode tol get (Node t' name [base; Native (1 # 2)])
      [(unit_1, Pint u_1); (container_dimensionless, Pint pint_dimensionless)].
Proof.
  intros Ht Ht' Hdimensionless Hunits.
  rewrite unary_dispatch by assumption.
  unfold _get_unit_for_unary_function; simpl.
  rewrite _pint_units_equivalent_Pint; simpl. rewrite Hunits.
  symmetry.
  pow_rule Ht'; rewrite Hdimensionless; simpl; rewrite Hunits; reflexivity.
Qed.

End CompositionProperties.

(** * Further properties of the units container *)

Section ContainerInvariants.
Context {pint : PintLibrary}.
Implicit Types (self : Container.PyomoUnitsContainer) (item : string).

Lemma getattr_cases self item :
  (exists unit, Container.attributes self !! item = Some unit
                /\ Container.getattr self item = (Ok unit, self))
  \/ (Container.attributes self !! item = None
      /\ Container.resolve self item = None
      /\ Container.getattr self item
         = (Raise (AttributeError
                     [Text "Attribute "; Text item; Text " not found."]),
            self))
  \/ (exists u,
        Container.attributes self !! item = None
        /\ Container.resolve self item = Some u
        /\ Container.getattr self item
           = (Ok (fst (Container.new_unit self item u)),
              snd (Container.new_unit self item u))).
Proof.
  unfold Container.getattr, Container.__getattr__, Container.ureg_getattr.
  destruct (Container.attributes self !! item) as [unit|] eqn:Hcached.
  - left. eauto.
  - right. destruct (Container.resolve self item) as [u|] eqn:Hresolve.
    + right. exists u. auto.
    + left. auto.
Qed.

Lemma getattr_preserves self item :
  cache_consistent self ->
  cache_injective self ->
  let self' := snd (Container.getattr self item) in
  cache_consistent self'
  /\ cache_injective self'
  /\ Container.resolve self' = Container.resolve self
  /\ Container.attributes self ⊆ Container.attributes self'.
Proof.
  intros Hconsistent Hinjective.
  destruct (getattr_cases self item)
    as [(unit & _ & ->)|[(_ & _ & ->)|(u & Hfresh & Hresolve & ->)]];
    simpl; try (split; [|split; [|split]]; auto; reflexivity).
  split; [|split; [|split]].
  - intros item0 unit0. simpl.
    destruct (decide (item = item0)) as [<-|Hne].
    + rewrite lookup_insert_eq. intros [= <-]. simpl. split; [assumption|lia].
    + rewrite lookup_insert_ne by assumption. intros Hcached.
      destruct (Hconsistent _ _ Hcached). split; [assumption|lia].
  - intros item1 item2 unit1 unit2. simpl.
    destruct (decide (item = item1)) as [<-|Hne1];
      destruct (decide (item = item2)) as [<-|Hne2];
      rewrite ?lookup_insert_eq, ?lookup_insert_ne by assumption;
      try reflexivity.
    + intros [= <-] Hcached Haddress. simpl in Haddress.
      destruct (Hconsistent _ _ Hcached). lia.
    + intros Hcached [= <-] Haddress. simpl in Haddress.
      destruct (Hconsistent _ _ Hcached). lia.
    + apply Hinjective.
  - reflexivity.
  - apply insert_subseteq, Hfresh.
Qed.

(** X18: looking an attribute up keeps the container in order: every stored
    unit still wraps what the registry resolves for its name, no two names
    share an object, the registry is the same, and nothing that was stored
    is lost or replaced. *)
Theorem getattr_keeps_cache_invariants self item :
  cache_consistent self ->
  cache_injective self ->
  let self' := snd (Container.getattr self item) in
  cache_consistent self'
  /\ cache_injective self'
  /\ Container.resolve self' = Container.resolve self
  /\ Container.attributes self ⊆ Container.attributes self'.
Proof. apply getattr_preserves. Qed.

(** X19: on a container in order the lookup follows the registry: it returns
    a unit exactly for the names the registry resolves, the unit wraps what
    the registry resolves, an unknown name always raises [AttributeError],
    and a lookup that raises leaves the container as it was. *)
Theorem getattr_follows_registry self item :
  cache_consistent self ->
  (forall unit self', Container.getattr self item = (Ok unit, self') ->
   Container.resolve self item = Some (Container._pint_unit unit))
  /\ (Container.resolve self item = None ->
      Container.getattr self item
      = (Raise (AttributeError
                  [Text "Attribute "; Text item; Text " not found."]), self))
  /\ (forall err self', Container.getattr self item = (Raise err, self') ->
      self' = self /\ Container.resolve self item = None).
Proof.
  intros Hconsistent.
  destruct (getattr_cases self item)
    as [(unit & Hcached & ->)|[(_ & Hresolve & ->)|(u & _ & Hresolve & ->)]].
  - destruct (Hconsistent _ _ Hcached) as [Hresolve _].
    split; [|split].
    + intros unit' self' [= <- _]. exact Hresolve.
    + intros Hnone. congruence.
    + intros err self' H. discriminate H.
  - split; [|split].
    + intros unit' self' H. discriminate H.
    + reflexivity.
    + intros err self' [= _ <-]. split; [reflexivity|assumption].
  - split; [|split].
    + intros unit' self' [= <- _]. exact Hresolve.
    + intros Hnone. congruence.
    + intros err self' H. discriminate H.
Qed.

Lemma getattr_Ok_cached self item unit self' :
  Container.getattr self item = (Ok unit, self') ->
  Container.attributes self' !! item = Some unit.
Proof.
  destruct (getattr_cases self item)
    as [(unit0 & Hcached & ->)|[(_ & _ & ->)|(u & _ & _ & ->)]].
  - intros [= <- <-]. exact Hcached.
  - intros H. discriminate H.
  - intros [= <- <-]. simpl. apply lookup_insert_eq.
Qed.

Lemma getattr_grows self item :
  Container.attributes self
  ⊆ Container.attributes (snd (Container.getattr self item)).
Proof.
  destruct (getattr_cases self item)
    as [(unit0 & _ & ->)|[(_ & _ & ->)|(u & Hfresh & _ & ->)]];
    simpl; try reflexivity.
  apply insert_subseteq, Hfresh.
Qed.

(** X20: the unit of a name is one object for good: once a lookup has
    returned it, a lookup of any name, known or not, leaves it in place, and
    the next lookup of the first name returns the same object and changes
    nothing. *)
Theorem unit_identity_is_stable self item other unit self1 outcome self2 :
  Container.getattr self item = (Ok unit, self1) ->
  Container.getattr self1 other = (outcome, self2) ->
  Container.getattr self2 item = (Ok unit, self2).
Proof.
  intros Hfirst Hother. apply getattr_cached.
  apply getattr_Ok_cached in Hfirst.
  pose proof (getattr_grows self1 other) as Hgrows.
  rewrite Hother in Hgrows. simpl in Hgrows.
  exact (lookup_weaken _ _ _ _ Hfirst Hgrows).
Qed.

(** X21: on a container in order, the units of two different names are two
    different objects. *)
Theorem distinct_names_distinct_units
    self item1 item2 unit1 unit2 self1 self2 :
  cache_consistent self ->
  cache_injective self ->
  item1 <> item2 ->
  Container.getattr self item1 = (Ok unit1, self1) ->
  Container.getattr self1 item2 = (Ok unit2, self2) ->
  Container.address unit1 <> Container.address unit2.
Proof.
  intros Hconsistent Hinjective Hne Hfirst Hsecond Haddress.
  destruct (getattr_preserves self item1 Hconsistent Hinjective)
    as (Hconsistent1 & Hinjective1 & _).
  rewrite Hfirst in Hconsistent1, Hinjective1. simpl in *.
  destruct (getattr_preserves self1 item2 Hconsistent1 Hinjective1)
    as (_ & Hinjective2 & _).
  rewrite Hsecond in Hinjective2. simpl in *.
  apply Hne, (Hinjective2 item1 item2 unit1 unit2); [| |assumption].
  - apply getattr_Ok_cached in Hfirst.
    pose proof (getattr_grows self1 item2) as Hgrows.
    rewrite Hsecond in Hgrows. simpl in Hgrows.
    exact (lookup_weaken _ _ _ _ Hfirst Hgrows).
  - exact (getattr_Ok_cached _ _ _ _ Hsecond).
Qed.

End ContainerInvariants.

(** * The properties at work on the example registry *)

Import Example.

(** An empty linear expression has no first term: the traversal raises
    [IndexError], which is none of the units errors, and the boolean mode
    answers [False]. *)
Lemma empty_linear_raises_IndexError :
  _get_units_tuple empty_linear = Raise IndexError
  /\ units_error_taxonomy (IndexError (pint := registry)) = false
  /\ check_units_consistency empty_linear (PyBool false) = Ok false.
Proof. repeat split. Qed.

(** C1 fails on the empty linear expression. *)
Lemma check_units_consistency_masks_IndexError :
  ~ ((check_units_consistency empty_linear (PyBool false) = Ok true
      <-> exists r, _get_units_tuple empty_linear = Ok r)
     /\ (check_units_consistency empty_linear (PyBool false) = Ok false
         <-> exists err, _get_units_tuple empty_linear = Raise err
                         /\ units_error_taxonomy err = true)
     /\ (forall err, _get_units_tuple empty_linear = Raise err ->
         units_error_taxonomy err = false ->
         check_units_consistency empty_linear (PyBool false) = Raise err)).
Proof.
  intros (_ & _ & Hpropagates).
  specialize (Hpropagates IndexError eq_refl eq_refl).
  discriminate Hpropagates.
Qed.

Lemma check_units_consistency_swallows_every_exception_witness :
  (check_units_consistency empty_linear (PyBool false) = Ok false
   <-> exists err, _get_units_tuple empty_linear = Raise err)
  /\ check_units_consistency sin_x_meters (PyBool false) = Ok false
  /\ check_units_consistency sin_x_radians (PyBool false) = Ok true.
Proof.
  split; [|split].
  - apply (check_units_consistency_swallows_every_exception empty_linear).
  - apply (check_units_consistency_swallows_every_exception sin_x_meters).
    eexists; reflexivity.
  - apply (check_units_consistency_swallows_every_exception sin_x_radians).
    eexists; reflexivity.
Defined.

(** With [allow_exceptions=1] the error of [sin(x*m)] is swallowed. *)
Lemma check_units_consistency_mode_by_identity_witness :
  PyInt 1 <> PyBool true
  /\ check_units_consistency sin_x_meters (PyInt 1) = Ok false.
Proof.
  assert (PyInt 1 <> PyBool true) as Hne by discriminate.
  split; [exact Hne|].
  exact (proj1 (check_units_consistency_mode_by_identity sin_x_meters (PyInt 1))
           Hne).
Defined.

(** [x ** 2] with a variable [x]: both children are dimensionless. *)
Lemma pow_dimensionless_base_returns_exponent_pyomo_unit_witness :
  exitNode default_tolerance no_recursion x_squared
    [(dimensionless, Pint u_dimensionless); (dimensionless, Pint u_dimensionless)]
  = Ok (dimensionless, Pyomo dimensionless).
Proof.
  apply (pow_dimensionless_base_returns_exponent_pyomo_unit
           default_tolerance no_recursion PowExpression "pow"
           [var_x; Native 2] dimensionless u_dimensionless
           dimensionless u_dimensionless);
    [left; reflexivity | reflexivity | reflexivity].
Defined.

(** The whole inference on [x ** 2]: the second slot is not a pint unit. *)
Lemma x_squared_units_tuple :
  _get_units_tuple x_squared = Ok (dimensionless, Pyomo dimensionless)
  /\ forall u, _get_units_tuple x_squared <> Ok (dimensionless, Pint u).
Proof. split; [reflexivity|]. intros u H. discriminate H. Qed.

(** [(x*m) ** p] with [p] fixed at [2], [(x*m) ** y] with a variable [y] and
    [(x*m) ** (x*m)]. *)
Lemma pow_dimensioned_base_witness :
  exitNode default_tolerance no_recursion x_meters_to_p
    [(m, Pint u_meter); (dimensionless, Pint u_dimensionless)]
  = Ok (pyomo_pow m 2, Pint (pint_pow u_meter 2))
  /\ exitNode default_tolerance no_recursion x_meters_to_y
       [(m, Pint u_meter); (dimensionless, Pint u_dimensionless)]
     = Raise (UnitsError
                [Text "The base of an exponent has units "; Str_expr m;
                 Text ", but the exponent is not a fixed numerical value."])
  /\ exitNode default_tolerance no_recursion x_meters_to_x_meters
       [(m, Pint u_meter); (m, Pint u_meter)]
     = Raise (UnitsError
                [Text "Error in sub-expression: "; Str_expr x_meters_to_x_meters;
                 Text ". Exponents in a pow expression must be dimensionless."]).
Proof.
  split; [|split].
  - destruct (pow_dimensioned_base default_tolerance no_recursion
                PowExpression "pow" x_meters param_p m u_meter
                dimensionless u_dimensionless (or_introl eq_refl))
      as [_ Hdimensionless].
    destruct (Hdimensionless eq_refl eq_refl) as [_ Hfixed].
    exact (Hfixed (or_intror (or_introl eq_refl)) 2%Q eq_refl).
  - destruct (pow_dimensioned_base default_tolerance no_recursion
                PowExpression "pow" x_meters var_y m u_meter
                dimensionless u_dimensionless (or_introl eq_refl))
      as [_ Hdimensionless].
    destruct (Hdimensionless eq_refl eq_refl) as [Hfree _].
    exact (Hfree eq_refl eq_refl eq_refl).
  - destruct (pow_dimensioned_base default_tolerance no_recursion
                PowExpression "pow" x_meters x_meters m u_meter
                m u_meter (or_introl eq_refl))
      as [Hexponent _].
    exact (Hexponent eq_refl).
Defined.

(** Three lengths of [1], [1 + 6e-13] and [1 - 6e-13] meter: the second and
    the third are each within [1e-12] of the first, not of each other. *)
Lemma nearly_equal_lengths :
  equivalent default_tolerance u_meter u_meter_up = true
  /\ equivalent default_tolerance u_meter u_meter_down = true
  /\ equivalent default_tolerance u_meter_up u_meter_down = false
  /\ pairwise_equivalent default_tolerance [u_meter; u_meter_up; u_meter_down]
     = false.
Proof. repeat split. Qed.

(** C4 fails on their sum: the children are not pairwise equivalent and yet
    no error is raised. *)
Lemma sum_of_nearly_equal_lengths_is_accepted :
  let children := [(m, u_meter); (m_up, u_meter_up); (m_down, u_meter_down)] in
  ~ ((pairwise_equivalent default_tolerance (map snd children) = true ->
      exitNode default_tolerance no_recursion three_lengths (tuples children)
      = Ok (m, Pint u_meter))
     /\ (pairwise_equivalent default_tolerance (map snd children) = false ->
         exists exp1 exp2 msg,
           exitNode default_tolerance no_recursion three_lengths
             (tuples children)
           = Raise (InconsistentUnitsError exp1 exp2 msg))).
Proof.
  intros children [_ Hraises].
  destruct Hraises as (exp1 & exp2 & msg & Hraise); [reflexivity|].
  change (Ok (m, Pint u_meter) = Raise (InconsistentUnitsError exp1 exp2 msg))
    in Hraise.
  discriminate Hraise.
Qed.

(** The same on the whole traversal. *)
Lemma three_lengths_units_tuple :
  _get_units_tuple three_lengths = Ok (m, Pint u_meter).
Proof. reflexivity. Qed.

(** [x*m + x*m_up + x*m_down] is accepted with the unit of the first child,
    and [x*m + x*kg] is refused, naming meter and kilogram. *)
Lemma equivalent_children_compared_with_first_witness :
  exitNode default_tolerance no_recursion three_lengths
    (tuples [(m, u_meter); (m_up, u_meter_up); (m_down, u_meter_down)])
  = Ok (m, Pint u_meter)
  /\ exitNode default_tolerance no_recursion
       (Node SumExpression "sum" [x_meters; var_x])
       (tuples [(m, u_meter); (kg, u_kilogram)])
     = Raise (InconsistentUnitsError (Pint u_meter) (Pint u_kilogram)
                [Text "Error in units found in expression: ";
                 Str_expr (Node SumExpression "sum" [x_meters; var_x])]).
Proof.
  split.
  - exact (proj1 (equivalent_children_compared_with_first default_tolerance
                    no_recursion SumExpression "sum" _ m u_meter
                    [(m_up, u_meter_up); (m_down, u_meter_down)]
                    (or_intror (or_intror (or_intror (or_introl eq_refl)))))).
  - exact (proj1 (equivalent_children_compared_with_first default_tolerance
                    no_recursion SumExpression "sum" [x_meters; var_x]
                    m u_meter [(kg, u_kilogram)]
                    (or_intror (or_intror (or_intror (or_introl eq_refl)))))).
Defined.

(** [x * m * kg]: the dimensionless [x] is skipped. *)
Lemma product_of_children_with_units_witness :
  exitNode default_tolerance no_recursion
    (Node ProductExpression "prod" [var_x; m; kg])
    (tuples [(dimensionless, u_dimensionless); (m, u_meter); (kg, u_kilogram)])
  = Ok (pyomo_mul m kg, Pint (pint_mul u_meter u_kilogram)).
Proof.
  apply (product_of_children_with_units default_tolerance no_recursion
           ProductExpression "prod" [var_x; m; kg]
           [(dimensionless, u_dimensionless); (m, u_meter); (kg, u_kilogram)]);
    [left; reflexivity | simpl; lia].
Defined.

(** [f()] for an external function [f]. *)
Lemma opaque_node_without_children_raises_witness :
  _get_units_tuple f_of_nothing = Raise (UnboundLocalError "pyomo_unit").
Proof.
  apply (opaque_node_without_children_raises default_tolerance no_recursion
           ExternalFunctionExpression "f").
  right; left; reflexivity.
Defined.

(** [sin(x*rad)], [sin(x*m)] and [asin(x)]. *)
Lemma trigonometric_functions_witness :
  exitNode default_tolerance no_recursion sin_x_radians [(rad, Pint u_radian)]
  = Ok (dimensionless, Pint u_dimensionless)
  /\ exitNode default_tolerance no_recursion sin_x_meters [(m, Pint u_meter)]
     = Raise (UnitsError
                [Text "Expected radians in argument to function in expression ";
                 Str_expr sin_x_meters; Text ", but found "; Str_expr m])
  /\ exitNode default_tolerance no_recursion asin_x
       [(dimensionless, Pint u_dimensionless)]
     = Ok (rad, Pint u_radian).
Proof.
  split; [|split].
  - exact (proj1 (trigonometric_functions default_tolerance no_recursion
                    UnaryFunctionExpression "sin" [x_radians] rad u_radian
                    (or_introl eq_refl))
             (or_introl eq_refl)).
  - exact (proj1 (trigonometric_functions default_tolerance no_recursion
                    UnaryFunctionExpression "sin" [x_meters] m u_meter
                    (or_introl eq_refl))
             (or_introl eq_refl)).
  - exact (proj2 (trigonometric_functions default_tolerance no_recursion
                    UnaryFunctionExpression "asin" [var_x]
                    dimensionless u_dimensionless (or_introl eq_refl))
             (or_introl eq_refl)).
Defined.

(** A named expression and the function [erf]. *)
Lemma unhandled_nodes_raise_TypeError_witness :
  exitNode default_tolerance no_recursion named_expression
    [(dimensionless, Pint u_dimensionless)]
  = Raise (TypeError
             [Text "An unhandled expression node type: ";
              Str_type (OtherExpression "_GeneralExpressionData");
              Text " was encountered while retrieving the units of expression"])
  /\ exitNode default_tolerance no_recursion erf_x
       [(dimensionless, Pint u_dimensionless)]
     = Raise (TypeError
                [Text "An unhandled unary function: "; Text "erf";
                 Text " was encountered while retrieving the units of expression ";
                 Str_expr erf_x])
  /\ forall r, _get_units_tuple erf_x <> Ok r.
Proof.
  split; [|split].
  - exact (proj1 (proj1 (unhandled_nodes_raise_TypeError default_tolerance
                           no_recursion
                           (OtherExpression "_GeneralExpressionData") "e"
                           [var_x] [(dimensionless, Pint u_dimensionless)])
                    eq_refl)).
  - exact (proj1 (proj2 (unhandled_nodes_raise_TypeError default_tolerance
                           no_recursion UnaryFunctionExpression "erf"
                           [var_x] [(dimensionless, Pint u_dimensionless)])
                    (or_introl eq_refl) eq_refl)
             eq_refl).
  - exact (proj2 (proj2 (unhandled_nodes_raise_TypeError default_tolerance
                           no_recursion UnaryFunctionExpression "erf"
                           [var_x] [])
                    (or_introl eq_refl) eq_refl)).
Defined.

(** The registry does not know [not_a_unit]: the container raises
    [AttributeError], not [UndefinedUnitError]. *)
Lemma unknown_unit_raises_AttributeError :
  Container.resolve fresh_container "not_a_unit" = None
  /\ forall name self',
       Container.getattr fresh_container "not_a_unit"
       <> (Raise (UndefinedUnitError name), self').
Proof.
  split; [reflexivity|].
  intros name self' H.
  change (Container.getattr fresh_container "not_a_unit")
    with (Raise (A := Container._PyomoUnit)
            (AttributeError
               [Text "Attribute "; Text "not_a_unit"; Text " not found."]),
          fresh_container) in H.
  discriminate H.
Qed.

(** C9 fails on [not_a_unit]. *)
Lemma unknown_unit_is_not_UndefinedUnitError :
  ~ (Container.resolve fresh_container "not_a_unit" = None ->
     exists self',
       Container.getattr fresh_container "not_a_unit"
       = (Raise (UndefinedUnitError "not_a_unit"), self')).
Proof.
  intros Hclaim. destruct (Hclaim eq_refl) as [self' H].
  exact (proj2 unknown_unit_raises_AttributeError _ _ H).
Qed.

(** [not_a_unit] and [meter] on a fresh container. *)
Lemma container_attribute_lookup_witness :
  Container.getattr fresh_container "not_a_unit"
  = (Raise (AttributeError
              [Text "Attribute "; Text "not_a_unit"; Text " not found."]),
     fresh_container)
  /\ exists unit self',
       Container.getattr fresh_container "meter" = (Ok unit, self')
       /\ Container._pint_unit unit = u_meter
       /\ Container.getattr self' "meter" = (Ok unit, self').
Proof.
  split.
  - exact (proj1 (container_attribute_lookup fresh_container "not_a_unit"
                    (lookup_empty _))
             eq_refl).
  - exact (proj2 (container_attribute_lookup fresh_container "meter"
                    (lookup_empty _))
             u_meter eq_refl).
Defined.

(** * The further properties at work on the example registry *)


(** [x*m + sin(x*m) + f()]: the error of [sin(x*m)] is the error of the
    sum, [f()] is not reached. *)
Lemma first_failing_child_decides_witness :
  _get_units_tuple
    (Node SumExpression "sum" [x_meters; sin_x_meters; f_of_nothing])
  = Raise (UnitsError
             [Text "Expected radians in argument to function in expression ";
              Str_expr sin_x_meters; Text ", but found "; Str_expr m]).
Proof.
  apply (first_failing_child_decides (pint := registry) SumExpression "sum"
           [x_meters] sin_x_meters [f_of_nothing]).
  - repeat constructor.
  - reflexivity.
Defined.

(** [x] lies below [sin(x * rad)], which has units. *)
Lemma subexpressions_have_units_witness :
  exists r, _get_units_tuple var_x = Ok r.
Proof.
  apply (subexpressions_have_units (pint := registry) var_x sin_x_radians
           (dimensionless, @Pint registry u_dimensionless)).
  - apply rtc_l with x_radians; [constructor; left; reflexivity|].
    apply rtc_once. constructor; left; reflexivity.
  - reflexivity.
Defined.

(** A variable is dimensionless. *)
Lemma leaf_units_witness :
  _get_units_tuple var_x = Ok (dimensionless, Pint u_dimensionless).
Proof. apply (leaf_units (pint := registry) var_x). reflexivity. Defined.

(** [1 / (x*m)]. *)
Lemma reciprocal_units_witness :
  exitNode default_tolerance no_recursion
    (Node ReciprocalExpression "recip" [x_meters]) [(m, Pint u_meter)]
  = Ok (pyomo_rdiv m, Pint (pint_rdiv u_meter)).
Proof.
  apply (reciprocal_units (pint := registry) default_tolerance no_recursion
           ReciprocalExpression "recip" [x_meters] m u_meter).
  left; reflexivity.
Defined.

(** [- (x*m)] and [floor(x*m)]. *)
Lemma single_child_passes_through_witness :
  exitNode default_tolerance no_recursion
    (Node NegationExpression "neg" [x_meters]) [(m, Pint u_meter)]
  = Ok (m, Pint u_meter)
  /\ exitNode default_tolerance no_recursion
       (Node UnaryFunctionExpression "floor" [x_meters]) [(m, Pint u_meter)]
     = Ok (m, Pint u_meter).
Proof.
  split.
  - apply (single_child_passes_through (pint := registry) default_tolerance no_recursion
             NegationExpression "neg" [x_meters] (m, @Pint registry u_meter)).
    left; left; reflexivity.
  - apply (single_child_passes_through (pint := registry) default_tolerance no_recursion
             UnaryFunctionExpression "floor" [x_meters] (m, @Pint registry u_meter)).
    right; split; [left; reflexivity|right; left; reflexivity].
Defined.

(** [sqrt(x*m)]. *)
Lemma sqrt_units_witness :
  exitNode default_tolerance no_recursion
    (Node UnaryFunctionExpression "sqrt" [x_meters]) [(m, Pint u_meter)]
  = Ok (pyomo_pow m (1 # 2), Pint (pint_pow u_meter (1 # 2))).
Proof.
  apply (sqrt_units (pint := registry) default_tolerance no_recursion
           UnaryFunctionExpression [x_meters] m u_meter).
  left; reflexivity.
Defined.

(** [log(x*m)] is refused, [exp(x*rad)] keeps the radians. *)
Lemma logarithm_units_witness :
  exitNode default_tolerance no_recursion
    (Node UnaryFunctionExpression "log" [x_meters]) [(m, Pint u_meter)]
  = Raise (UnitsError
             [Text "Expected dimensionless units in ";
              Str_expr (Node UnaryFunctionExpression "log" [x_meters]);
              Text ", but found "; Str_expr m; Text "."])
  /\ exitNode default_tolerance no_recursion
       (Node UnaryFunctionExpression "exp" [x_radians]) [(rad, Pint u_radian)]
     = Ok (rad, Pint u_radian).
Proof.
  split.
  - apply (logarithm_units (pint := registry) default_tolerance no_recursion
             UnaryFunctionExpression "log" [x_meters] m u_meter);
      left; reflexivity.
  - apply (logarithm_units (pint := registry) default_tolerance no_recursion
             UnaryFunctionExpression "exp" [x_radians] rad u_radian);
      [left; reflexivity|right; right; left; reflexivity].
Defined.

(** A sum of nothing, a product of one child and [sin] of two. *)
Lemma wrong_number_of_children_witness :
  exitNode default_tolerance no_recursion (Node SumExpression "sum" []) []
  = Raise AssertionError
  /\ exitNode default_tolerance no_recursion
       (Node ProductExpression "prod" [m]) [(m, Pint u_meter)]
     = Raise AssertionError
  /\ exitNode default_tolerance no_recursion
       (Node UnaryFunctionExpression "sin" [x_radians; x_radians])
       [(rad, Pint u_radian); (rad, Pint u_radian)]
     = Raise AssertionError.
Proof.
  split; [|split].
  - apply (proj1 (wrong_number_of_children (pint := registry) default_tolerance no_recursion
                    SumExpression "sum" [] []));
      [right; right; right; left; reflexivity|reflexivity].
  - apply (proj1 (proj2 (wrong_number_of_children (pint := registry) default_tolerance
                           no_recursion ProductExpression "prod" [m]
                           [(m, @Pint registry u_meter)])));
      [left; reflexivity|simpl; lia].
  - apply (proj1 (proj2 (proj2 (proj2
             (wrong_number_of_children (pint := registry) default_tolerance no_recursion
                UnaryFunctionExpression "sin" [x_radians; x_radians]
                [(rad, @Pint registry u_radian); (rad, @Pint registry u_radian)])))));
      [right; right; left; reflexivity|simpl; lia].
Defined.

(** The three lengths agree within [1e-12], hence within [1e-3]. *)
Lemma larger_tolerance_accepts_more_witness :
  exitNode (1 # 1000) no_recursion three_lengths
    (tuples [(m, u_meter); (m_up, u_meter_up); (m_down, u_meter_down)])
  = Ok (m, Pint u_meter).
Proof.
  apply (proj2 (larger_tolerance_accepts_more (pint := registry) default_tolerance (1 # 1000)
                  no_recursion SumExpression "sum" _
                  [(m, u_meter); (m_up, u_meter_up); (m_down, u_meter_down)]
                  (m, @Pint registry u_meter)
                  ltac:(unfold default_tolerance, Qle; simpl; lia)
                  (or_intror (or_intror (or_intror (or_introl eq_refl)))))).
  reflexivity.
Defined.

(** [m * x * kg] has the units of [m * kg]. *)
Lemma dimensionless_child_is_neutral_witness :
  exitNode default_tolerance no_recursion
    (Node ProductExpression "prod" [m; var_x; kg])
    (tuples [(m, u_meter); (dimensionless, u_dimensionless); (kg, u_kilogram)])
  = exitNode default_tolerance no_recursion
      (Node ProductExpression "prod" [m; kg])
      (tuples [(m, u_meter); (kg, u_kilogram)]).
Proof.
  apply (dimensionless_child_is_neutral (pint := registry) default_tolerance no_recursion
           ProductExpression "prod" [m; var_x; kg] [m; kg]
           [(m, u_meter)] (dimensionless, u_dimensionless) [(kg, u_kilogram)]);
    [left; reflexivity|reflexivity|simpl; lia].
Defined.

(** [3*m + m*x]: both terms are lengths. *)
Lemma linear_expression_units_witness :
  exitNode default_tolerance _get_units_tuple
    (Linear (Native 0) [Native 3; m] [m; var_x]) []
  = Ok (m, Pint u_meter).
Proof.
  apply (proj1 (linear_expression_units (pint := registry) default_tolerance _get_units_tuple
                  (Native 0) [Native 3; m] [m; var_x]
                  [(dimensionless, u_dimensionless); (m, u_meter)]
                  [(m, u_meter); (dimensionless, u_dimensionless)]
                  ltac:(repeat constructor) ltac:(repeat constructor)
                  eq_refl)).
  reflexivity.
Defined.

(** One coefficient for two variables, and nothing at all. *)
Lemma linear_expression_failures_witness :
  exitNode default_tolerance _get_units_tuple
    (Linear (Native 0) [Native 3] [m; var_x]) []
  = Raise AssertionError
  /\ exitNode default_tolerance _get_units_tuple empty_linear []
     = Raise IndexError.
Proof.
  split.
  - apply (proj1 (proj2 (proj2
             (linear_expression_failures (pint := registry) default_tolerance _get_units_tuple
                (Native 0) [Native 3] [m; var_x] []))));
      [left; reflexivity|simpl; lia].
  - apply (proj2 (proj2 (proj2
             (linear_expression_failures (pint := registry) default_tolerance _get_units_tuple
                (Native 0) [] [] []))));
      reflexivity.
Defined.

Lemma fresh_container_in_order :
  cache_consistent fresh_container /\ cache_injective fresh_container.
Proof.
  split.
  - intros item unit H. unfold fresh_container in H; simpl in H.
    rewrite lookup_empty in H. discriminate H.
  - intros item1 item2 unit1 unit2 H. unfold fresh_container in H; simpl in H.
    rewrite lookup_empty in H. discriminate H.
Qed.

(** The container after [meter] was looked up. *)
Lemma getattr_keeps_cache_invariants_witness :
  cache_consistent (snd (Container.getattr fresh_container "meter"))
  /\ cache_injective (snd (Container.getattr fresh_container "meter")).
Proof.
  destruct (getattr_keeps_cache_invariants (pint := registry) fresh_container "meter"
              (proj1 fresh_container_in_order)
              (proj2 fresh_container_in_order)) as (H1 & H2 & _).
  exact (conj H1 H2).
Defined.

(** [not_a_unit] on the fresh container. *)
Lemma getattr_follows_registry_witness :
  Container.getattr fresh_container "not_a_unit"
  = (Raise (AttributeError
              [Text "Attribute "; Text "not_a_unit"; Text " not found."]),
     fresh_container).
Proof.
  apply (proj1 (proj2 (getattr_follows_registry (pint := registry) fresh_container "not_a_unit"
                         (proj1 fresh_container_in_order)))).
  reflexivity.
Defined.

(** [meter], then the unknown [not_a_unit], then [meter] again. *)
Lemma unit_identity_is_stable_witness :
  let unit := fst (Container.new_unit fresh_container "meter" u_meter) in
  let self1 := snd (Container.new_unit fresh_container "meter" u_meter) in
  Container.getattr fresh_container "meter" = (Ok unit, self1)
  /\ Container.getattr self1 "meter" = (Ok unit, self1).
Proof.
  intros unit self1.
  assert (Container.getattr fresh_container "meter" = (Ok unit, self1))
    as Hfirst by reflexivity.
  split; [exact Hfirst|].
  apply (unit_identity_is_stable (pint := registry) fresh_container "meter"
           "not_a_unit" unit self1
           (Raise (AttributeError
                     [Text "Attribute "; Text "not_a_unit";
                      Text " not found."])) self1 Hfirst).
  reflexivity.
Defined.

(** [meter] and [kilogram] are two objects. *)
Lemma distinct_names_distinct_units_witness :
  let unit1 := fst (Container.new_unit fresh_container "meter" u_meter) in
  let self1 := snd (Container.new_unit fresh_container "meter" u_meter) in
  let unit2 := fst (Container.new_unit self1 "kilogram" u_kilogram) in
  Container.address unit1 <> Container.address unit2.
Proof.
  intros unit1 self1 unit2.
  apply (distinct_names_distinct_units (pint := registry) fresh_container
           "meter" "kilogram" unit1 unit2 self1
           (snd (Container.new_unit self1 "kilogram" u_kilogram))
           (proj1 fresh_container_in_order) (proj2 fresh_container_in_order)).
  - discriminate.
  - reflexivity.
  - reflexivity.
Defined.

(** With a tolerance of zero, [meter] and [meter_up] differ. *)
Lemma nonpositive_tolerance_is_equality_witness :
  _pint_units_equivalent 0 (Pint u_meter) (Pint u_meter_up) = Ok false.
Proof.
  apply (nonpositive_tolerance_is_equality (pint := registry) 0
           u_meter u_meter_up (Qle_refl 0)).
  apply Qabs_nonneg.
Defined.

(** [(x*m) ** dimensionless]. *)
Lemma unit_in_the_exponent_counts_as_one_witness :
  exitNode default_tolerance no_recursion
    (Node PowExpression "pow" [x_meters; dimensionless])
    [(m, Pint u_meter); (dimensionless, Pint u_dimensionless)]
  = Ok (pyomo_pow m 1, Pint (pint_pow u_meter 1)).
Proof.
  apply (unit_in_the_exponent_counts_as_one (pint := registry)
           default_tolerance no_recursion PowExpression "pow" x_meters
           u_dimensionless m u_meter);
    [left; reflexivity|reflexivity|reflexivity].
Defined.

(** [sqrt(x*m)] and [(x*m) ** 0.5]. *)
Lemma sqrt_is_power_one_half_witness :
  exitNode default_tolerance no_recursion
    (Node UnaryFunctionExpression "sqrt" [x_meters]) [(m, Pint u_meter)]
  = exitNode default_tolerance no_recursion
      (Node PowExpression "pow" [x_meters; Native (1 # 2)])
      [(m, Pint u_meter); (dimensionless, Pint u_dimensionless)].
Proof.
  apply (sqrt_is_power_one_half (pint := registry) default_tolerance
           no_recursion UnaryFunctionExpression PowExpression "pow"
           [x_meters] x_meters m u_meter);
    [left; reflexivity|left; reflexivity|reflexivity|reflexivity].
Defined.

(** [f(x*m)] is refused and [f(x, x*rad)] returns the radians of its last
    argument. *)
Lemma opaque_node_with_children_witness :
  exitNode default_tolerance no_recursion
    (Node ExternalFunctionExpression "f" [x_meters])
    (tuples [(m, u_meter)])
  = Raise (UnitsError
             [Text "Expected dimensionless units in ";
              Str_expr (Node ExternalFunctionExpression "f" [x_meters]);
              Text ", but found "; Str_expr m; Text "."])
  /\ exitNode default_tolerance no_recursion
       (Node ExternalFunctionExpression "f" [var_x; x_radians])
       (tuples [(dimensionless, u_dimensionless); (rad, u_radian)])
     = Ok (rad, Pint u_radian).
Proof.
  split.
  - apply (opaque_node_with_children (pint := registry) default_tolerance
             no_recursion ExternalFunctionExpression "f" [x_meters]
             (m, u_meter) []).
    right; left; reflexivity.
  - apply (opaque_node_with_children (pint := registry) default_tolerance
             no_recursion ExternalFunctionExpression "f" [var_x; x_radians]
             (dimensionless, u_dimensionless) [(rad, u_radian)]).
    right; left; reflexivity.
Defined.
